(** * The log-monitor backend (backend/server.js): ingestion, statistics and
      paginated listing, as a shallow embedding.

    The three route handlers of the Express server are translated to total
    functions over an explicit store.  JavaScript numbers are IEEE-754
    binary64 values ([spec_float] with precision 53 and maximal exponent
    1024), request bodies are JSON values, and a property read that yields
    [undefined] is the [None] of an option. *)

From Stdlib Require Import ZArith List String Ascii Bool Lia Sorted Permutation.
From Stdlib Require Import Floats.SpecFloat.
Import ListNotations.
Open Scope string_scope.
Open Scope list_scope.
Open Scope Z_scope.
Set Warnings "-register-all".

(** ** JavaScript numbers *)

Module Num.

Definition prec : Z := 53.
Definition emax : Z := 1024.

Definition number := spec_float.

(** An integer literal (or an integer count) as a number. *)
Definition of_Z (z : Z) : number := binary_normalize prec emax z 0 false.
Definition of_nat (n : nat) : number := of_Z (Z.of_nat n).

Definition mul (x y : number) : number := SFmul prec emax x y.
Definition div (x y : number) : number := SFdiv prec emax x y.

(** [x > y] *)
Definition gt (x y : number) : bool := SFltb y x.
(** [x <= y] *)
Definition le (x y : number) : bool := SFleb x y.

(** The integer closest to [m * 2^e], ties going up:
    [floor (m * 2^e + 1/2)]. *)
Definition round_half_up (m : Z) (e : Z) : Z :=
  match e with
  | Zneg k => (2 * m + 2 ^ Zpos k) / 2 ^ (Zpos k + 1)
  | _ => m * 2 ^ e
  end.

(** [Math.round]: the integer closest to [x], ties going up; zeros,
    infinities and NaN are returned unchanged, and a result of zero keeps
    the sign of [x]. *)
Definition Math_round (x : number) : number :=
  match x with
  | S754_finite s m e =>
      let n := round_half_up (cond_Zopp s (Zpos m)) e in
      if n =? 0 then S754_zero s else of_Z n
  | _ => x
  end.

(** ToBoolean on a number: false for zeros and NaN. *)
Definition to_boolean (x : number) : bool :=
  match x with
  | S754_zero _ | S754_nan => false
  | _ => true
  end.

End Num.

(** ** JSON values and the JavaScript operators the handlers use *)

Inductive json : Type :=
| JNull
| JBool (b : bool)
| JNum (x : Num.number)
| JStr (s : string)
| JArr (items : list json)
| JObj (fields : list (string * json)).

(** A JavaScript value that came from JSON: [None] is [undefined]. *)
Definition value := option json.

Definition undefined : value := None.

Fixpoint assoc (k : string) (fields : list (string * json)) : value :=
  match fields with
  | [] => None
  | (k', v) :: rest => if String.eqb k k' then Some v else assoc k rest
  end.

(** Reading property [k] of a value that is neither [null] nor [undefined].
    The handlers only read the names log, severity, s, msg, is_anomaly,
    anomaly_score, reason, entities and model_used, none of which is defined
    on a built-in prototype, so primitives and arrays answer [undefined]. *)
Definition get (j : json) (k : string) : value :=
  match j with
  | JObj fields => assoc k fields
  | _ => undefined
  end.

(** Outcome of evaluating an expression: a value, or a thrown TypeError. *)
Inductive completion (A : Type) : Type :=
| Normal (a : A)
| Throw (msg : string).
Arguments Normal {A} a.
Arguments Throw {A} msg.

Definition bind {A B} (c : completion A) (f : A -> completion B) : completion B :=
  match c with
  | Normal a => f a
  | Throw m => Throw m
  end.

Notation "x <- c ;; k" := (bind c (fun x => k))
  (at level 61, c at next level, right associativity).

(** [v.k] : throws on [null] and [undefined]. *)
Definition member (v : value) (k : string) : completion value :=
  match v with
  | None => Throw "TypeError: Cannot read properties of undefined"
  | Some JNull => Throw "TypeError: Cannot read properties of null"
  | Some j => Normal (get j k)
  end.

(** [v?.k] : [undefined] on [null] and [undefined]. *)
Definition opt_member (v : value) (k : string) : value :=
  match v with
  | None | Some JNull => undefined
  | Some j => get j k
  end.

(** ToBoolean. *)
Definition truthy (v : value) : bool :=
  match v with
  | None | Some JNull => false
  | Some (JBool b) => b
  | Some (JNum x) => Num.to_boolean x
  | Some (JStr s) => negb (String.eqb s "")
  | Some (JArr _) | Some (JObj _) => true
  end.

(** [a || b] *)
Definition or_else (a b : value) : value := if truthy a then a else b.

(** [a ?? b] *)
Definition nullish (a b : value) : value :=
  match a with
  | None | Some JNull => b
  | _ => a
  end.

(** [typeof v === 'undefined'] *)
Definition is_undefined (v : value) : bool :=
  match v with None => true | Some _ => false end.

(** ** The stored document (logSchema) and the store *)

(** The document the ingestion handler hands to [LogModel.create]. *)
Record doc : Type := {
  timestamp : Z;              (* milliseconds since the epoch *)
  meta_source : string;
  meta_severity : value;
  log : value;
  is_anomaly : bool;
  anomaly_score : value;
  reason : value;
  entities : value;
  model_used : bool
}.

(** A stored record: the document with the identifier storage gave it. *)
Record saved : Type := { _id : nat; body : doc }.

(** The collection, in insertion order, and the next free identifier.
    A record is kept as the document that was handed over.  What the schema
    layer of the storage library does to a document on the way (casting
    [anomaly_score], [reason] and [meta.severity], leaving out fields whose
    value is an empty object) is not modelled: the statements below speak
    of a stored record through its identity, its timestamp and its two
    flags, which that layer leaves alone. *)
Record store : Type := { docs : list saved; next_id : nat }.

(** [LogModel.create(d)]: resolves with the stored record, or rejects with
    a message.  The rejection is an input: it stands for a failure of
    storage as well as for a document the schema cannot cast. *)
Definition create (st : store) (d : doc) (fault : option string)
  : store * (saved + string) :=
  match fault with
  | Some m => (st, inr m)
  | None =>
      let s := {| _id := next_id st; body := d |} in
      ({| docs := docs st ++ [s]; next_id := S (next_id st) |}, inl s)
  end.

Definition countDocuments (p : saved -> bool) (st : store) : nat :=
  List.length (filter p (docs st)).

Definition find (p : saved -> bool) (st : store) : list saved :=
  filter p (docs st).

(** [.sort({ timestamp: -1 })].  Storage does not fix the order of records
    with equal timestamps; this sort lists the later insertion first. *)
Fixpoint insert_desc (r : saved) (l : list saved) : list saved :=
  match l with
  | [] => [r]
  | x :: rest =>
      if timestamp (body x) <? timestamp (body r)
      then r :: l
      else x :: insert_desc r rest
  end.

Fixpoint sort_desc (l : list saved) : list saved :=
  match l with
  | [] => []
  | x :: rest => insert_desc x (sort_desc rest)
  end.

(** [.skip(skip).limit(limit)] on a sorted cursor.  Storage rejects a
    negative skip; the driver sends a negative limit as its absolute value,
    and a limit of zero means no limit. *)
Definition page (sorted : list saved) (skip limit : Z) : option (list saved) :=
  if skip <? 0 then None
  else
    let rest := skipn (Z.to_nat skip) sorted in
    Some (if limit =? 0 then rest else firstn (Z.abs_nat limit) rest).

(** ** Responses and observable events *)

Module View.
(** One entry of [recentAnomalies]. *)
Record t : Type := {
  timestamp : Z;
  msg : value;
  reason : value;
  score : value
}.
End View.

Record stats : Type := {
  total : nat;
  anomalies : nat;
  anomalyRate : Num.number;
  threatLevel : string;
  recentAnomalies : list View.t
}.

Inductive response_body : Type :=
| ErrorBody (error : string)
| CreatedBody (id : nat) (ok : bool)
| StatsBody (s : stats)
| LogsBody (logs : list saved) (total : nat).

(** What a handler does, in the order it does it. *)
Inductive event : Type :=
| Stored (s : saved)                    (* LogModel.create resolved with s *)
| StoreRejected (m : string)            (* LogModel.create rejected *)
| Emit (name : string) (s : saved)      (* io.emit(name, s) *)
| ConsoleError (tag m : string)         (* console.error(tag, m) *)
| Respond (status : nat) (b : response_body).

(** ** POST /api/logs *)

(** [payload.log?.severity || payload.log?.s || 'I'] *)
Definition severity_expr (payload : value) : completion value :=
  l <- member payload "log" ;;
  let a := opt_member l "severity" in
  if truthy a then Normal a
  else
    l' <- member payload "log" ;;
    let b := opt_member l' "s" in
    if truthy b then Normal b else Normal (Some (JStr "I")).

Definition build_doc (now : Z) (payload : value) : completion doc :=
  sev <- severity_expr payload ;;
  l <- member payload "log" ;;
  ia <- member payload "is_anomaly" ;;
  sc <- member payload "anomaly_score" ;;
  r <- member payload "reason" ;;
  en <- member payload "entities" ;;
  mu <- member payload "model_used" ;;
  Normal {| timestamp := now;
            meta_source := "ai_engine";
            meta_severity := sev;
            log := l;
            is_anomaly := truthy ia;
            anomaly_score := nullish sc (Some (JNum (Num.of_Z 0)));
            reason := or_else r (Some (JStr ""));
            entities := or_else en (Some (JObj []));
            model_used := truthy mu |}.

Definition bad_request : list event :=
  [Respond 400 (ErrorBody "Invalid payload: log required")].

Definition post_logs (now : Z) (fault : option string) (req_body : value)
    (st : store) : completion (store * list event) :=
  let payload := req_body in
  if negb (truthy payload) then Normal (st, bad_request)
  else
    l <- member payload "log" ;;
    if is_undefined l then Normal (st, bad_request)
    else
      d <- build_doc now payload ;;
      match create st d fault with
      | (st', inl s) =>
          Normal (st', [Stored s; Emit "log" s;
                        Respond 201 (CreatedBody (_id s) true)])
      | (st', inr m) =>
          Normal (st', [StoreRejected m;
                        ConsoleError "[Backend] DB error:" m;
                        Respond 500 (ErrorBody "Failed to save log")])
      end.

(** ** GET /api/stats *)

(** [total > 0 ? (anomalies / total) * 100 : 0] *)
Definition anomaly_rate (total anomalies : nat) : Num.number :=
  if (0 <? total)%nat
  then Num.mul (Num.div (Num.of_nat anomalies) (Num.of_nat total)) (Num.of_Z 100)
  else Num.of_Z 0.

(** [rate > 10 ? 'high' : rate > 3 ? 'medium' : rate > 0 ? 'low' : 'none'] *)
Definition threat_level (rate : Num.number) : string :=
  if Num.gt rate (Num.of_Z 10) then "high"
  else if Num.gt rate (Num.of_Z 3) then "medium"
  else if Num.gt rate (Num.of_Z 0) then "low"
  else "none".

(** [Math.round(rate * 100) / 100] *)
Definition round2 (rate : Num.number) : Num.number :=
  Num.div (Num.Math_round (Num.mul rate (Num.of_Z 100))) (Num.of_Z 100).

(** [{ timestamp: { $gte: oneDayAgo } }] *)
Definition in_window (oneDayAgo : Z) (r : saved) : bool :=
  oneDayAgo <=? timestamp (body r).

(** [{ timestamp: { $gte: oneDayAgo }, is_anomaly: true }] *)
Definition anomalous_in_window (oneDayAgo : Z) (r : saved) : bool :=
  in_window oneDayAgo r && is_anomaly (body r).

Definition project (a : saved) : View.t :=
  {| View.timestamp := timestamp (body a);
     View.msg := opt_member (log (body a)) "msg";
     View.reason := reason (body a);
     View.score := anomaly_score (body a) |}.

Definition stats_of (now : Z) (st : store) : stats :=
  let oneDayAgo := now - 24 * 60 * 60 * 1000 in
  let total := countDocuments (in_window oneDayAgo) st in
  let anomalies := countDocuments (anomalous_in_window oneDayAgo) st in
  let recentAnomalies :=
    firstn 100 (sort_desc (find (anomalous_in_window oneDayAgo) st)) in
  let anomalyRate := anomaly_rate total anomalies in
  let threatLevel := threat_level anomalyRate in
  {| total := total;
     anomalies := anomalies;
     anomalyRate := round2 anomalyRate;
     threatLevel := threatLevel;
     recentAnomalies := map project recentAnomalies |}.

Definition get_stats (now : Z) (fault : option string) (st : store)
  : list event :=
  match fault with
  | Some m => [ConsoleError "[Backend] Stats error:" m;
               Respond 500 (ErrorBody "Failed to fetch stats")]
  | None => [Respond 200 (StatsBody (stats_of now st))]
  end.

(** ** GET /api/logs *)

(** White space that [parseInt] skips, as far as it fits in one byte. *)
Definition is_space (c : ascii) : bool :=
  match N_of_ascii c with
  | 9%N | 10%N | 11%N | 12%N | 13%N | 32%N => true
  | _ => false
  end.

Fixpoint trim_start (s : string) : string :=
  match s with
  | String c rest => if is_space c then trim_start rest else s
  | EmptyString => s
  end.

Definition digit_of (c : ascii) : option Z :=
  let n := Z.of_N (N_of_ascii c) in
  if (48 <=? n) && (n <=? 57) then Some (n - 48) else None.

(** Value of the longest prefix of decimal digits; [None] when it is empty. *)
Fixpoint digits (s : string) (acc : option Z) : option Z :=
  match s with
  | String c rest =>
      match digit_of c with
      | Some d =>
          digits rest (Some (10 * match acc with Some a => a | None => 0 end + d))
      | None => acc
      end
  | EmptyString => acc
  end.

(** [parseInt(s, 10)]; [None] is NaN.  The result is the mathematical
    integer, which is the JavaScript number as long as its magnitude is
    below 2^53. *)
Definition parseInt (s : string) : option Z :=
  match trim_start s with
  | String "-" rest => option_map Z.opp (digits rest None)
  | String "+" rest => digits rest None
  | t => digits t None
  end.

(** ToString of a query parameter given once as [name=text]: an absent one
    is [undefined]. *)
Definition param_string (q : option string) : string :=
  match q with
  | Some s => s
  | None => "undefined"
  end.

(** [n || d] on numbers: NaN and zero are falsy. *)
Definition num_or (n : option Z) (d : Z) : Z :=
  match n with
  | None | Some 0 => d
  | Some z => z
  end.

(** [Math.min(parseInt(req.query.limit, 10) || 50, 200)] *)
Definition limit_of (q : option string) : Z :=
  Z.min (num_or (parseInt (param_string q)) 50) 200.

(** [parseInt(req.query.skip, 10) || 0] *)
Definition skip_of (q : option string) : Z :=
  num_or (parseInt (param_string q)) 0.

Definition get_logs (q_limit q_skip : option string) (fault : option string)
    (st : store) : list event :=
  let limit := limit_of q_limit in
  let skip := skip_of q_skip in
  let failed m := [ConsoleError "[Backend] Logs fetch error:" m;
                   Respond 500 (ErrorBody "Failed to fetch logs")] in
  match fault with
  | Some m => failed m
  | None =>
      match page (sort_desc (find (fun _ => true) st)) skip limit with
      | Some logs => [Respond 200 (LogsBody logs (countDocuments (fun _ => true) st))]
      | None => failed "skip must be non-negative"
      end
  end.

(** ** Small runs of the handlers *)

Definition rec_at (i : nat) (t : Z) (anom : bool) : saved :=
  {| _id := i;
     body := {| timestamp := t; meta_source := "ai_engine";
                meta_severity := Some (JStr "I");
                log := Some (JObj [("msg", JStr "m")]);
                is_anomaly := anom;
                anomaly_score := Some (JNum (Num.of_Z 0));
                reason := Some (JStr "");
                entities := Some (JObj []);
                model_used := false |} |}.

Definition store_of (l : list saved) : store :=
  {| docs := l; next_id := List.length l |}.

(** [n] records at time [t], the first [k] of them anomalous. *)
Definition sample (n k : nat) (t : Z) : store :=
  store_of (map (fun i => rec_at i t (i <? k)%nat) (seq 0 n)).

(** ** Predicates used in the statements *)

(** The request passes the guard
    [!payload || typeof payload.log === 'undefined']. *)
Definition accepted (req : value) : bool :=
  truthy req && negb (is_undefined (opt_member req "log")).

(** The request carries no [log]: there is no body, or the body has no
    [log] key (a body that is not an object has no keys at all). *)
Definition lacks_log (req : value) : Prop :=
  opt_member req "log" = undefined.

(** A value that is [null] or a scalar that is not an object. *)
Definition scalar (v : json) : bool :=
  match v with
  | JNull | JBool _ | JNum _ | JStr _ => true
  | JArr _ | JObj _ => false
  end.

(** The document built from a payload that passed the guard, field by
    field, with every [payload.k] read as [opt_member payload k]. *)
Definition doc_fields (now : Z) (payload : value) (d : doc) : Prop :=
  timestamp d = now /\
  meta_source d = "ai_engine" /\
  meta_severity d =
    or_else (or_else (opt_member (opt_member payload "log") "severity")
                     (opt_member (opt_member payload "log") "s"))
            (Some (JStr "I")) /\
  log d = opt_member payload "log" /\
  is_anomaly d = truthy (opt_member payload "is_anomaly") /\
  anomaly_score d =
    nullish (opt_member payload "anomaly_score") (Some (JNum (Num.of_Z 0))) /\
  reason d = or_else (opt_member payload "reason") (Some (JStr "")) /\
  entities d = or_else (opt_member payload "entities") (Some (JObj [])) /\
  model_used d = truthy (opt_member payload "model_used").

(** Every [Emit] of a trace comes after the [Stored] of the same record. *)
Definition emits_follow_writes (tr : list event) : Prop :=
  forall pre name s post,
    tr = pre ++ Emit name s :: post -> name = "log" /\ In (Stored s) pre.

Definition no_emit (tr : list event) : Prop :=
  forall name s, ~ In (Emit name s) tr.

Definition no_write (tr : list event) : Prop :=
  forall s, ~ In (Stored s) tr.

(** [a] may come before [b] in a newest-first listing. *)
Definition newer_first (a b : saved) : Prop :=
  timestamp (body b) <= timestamp (body a).

(** The rate of the specification: [anomalies / total * 100] as an exact
    quotient, rounded to hundredths with ties going up, as the number the
    response would carry; 0 when [total] is 0. *)
Definition exact_rate_rounded (total anomalies : nat) : Num.number :=
  if (0 <? total)%nat
  then
    let t := Z.of_nat total in
    let a := Z.of_nat anomalies in
    Num.div (Num.of_Z ((2 * (a * 10000) + t) / (2 * t))) (Num.of_Z 100)
  else Num.of_Z 0.

(** Structural equality of numbers. *)
Definition number_eqb (x y : Num.number) : bool :=
  match x, y with
  | S754_zero a, S754_zero b => Bool.eqb a b
  | S754_infinity a, S754_infinity b => Bool.eqb a b
  | S754_nan, S754_nan => true
  | S754_finite a m e, S754_finite b n f =>
      Bool.eqb a b && Pos.eqb m n && Z.eqb e f
  | _, _ => false
  end.

(** The response rate and the exactly rounded rate coincide for every
    window of fewer than [n] records. *)
Definition agrees_below (n : nat) : bool :=
  forallb
    (fun t =>
       forallb
         (fun a => number_eqb (round2 (anomaly_rate t a))
                              (exact_rate_rounded t a))
         (seq 0 (S t)))
    (seq 0 n).

(** ** The routes, served one request after another *)

Inductive request : Type :=
| PostLogs (now : Z) (fault : option string) (req_body : value)
| GetStats (now : Z) (fault : option string)
| GetLogs (q_limit q_skip : option string) (fault : option string).

(** [app.post('/api/logs')], [app.get('/api/stats')], [app.get('/api/logs')]:
    only the first route writes. *)
Definition serve (rq : request) (st : store) : completion (store * list event) :=
  match rq with
  | PostLogs now fault req_body => post_logs now fault req_body st
  | GetStats now fault => Normal (st, get_stats now fault st)
  | GetLogs q_limit q_skip fault => Normal (st, get_logs q_limit q_skip fault st)
  end.

Fixpoint run (rqs : list request) (st : store) : completion (store * list event) :=
  match rqs with
  | [] => Normal (st, [])
  | rq :: rest =>
      r <- serve rq st ;;
      r' <- run rest (fst r) ;;
      Normal (fst r', snd r ++ snd r')
  end.

(** The records broadcast, the records acknowledged by storage and the
    responses sent in a trace, each in order. *)
Fixpoint emitted (tr : list event) : list saved :=
  match tr with
  | [] => []
  | Emit _ s :: rest => s :: emitted rest
  | _ :: rest => emitted rest
  end.

Fixpoint stored (tr : list event) : list saved :=
  match tr with
  | [] => []
  | Stored s :: rest => s :: stored rest
  | _ :: rest => stored rest
  end.

Fixpoint responses (tr : list event) : list (nat * response_body) :=
  match tr with
  | [] => []
  | Respond status b :: rest => (status, b) :: responses rest
  | _ :: rest => responses rest
  end.

(** A response body fits its status: an error descriptor with 400 and 500,
    the identifier with 201, data with 200. *)
Definition well_formed_response (r : nat * response_body) : bool :=
  match r with
  | (400%nat, ErrorBody _) | (500%nat, ErrorBody _) => true
  | (201%nat, CreatedBody _ true) => true
  | (200%nat, StatsBody _) | (200%nat, LogsBody _ _) => true
  | _ => false
  end.

(** The payload fields the ingestion handler reads. *)
Definition read_fields : list string :=
  ["log"; "is_anomaly"; "anomaly_score"; "reason"; "entities"; "model_used"].

(** Neither [null] nor [undefined]. *)
Definition not_nullish (v : value) : bool :=
  match v with
  | None | Some JNull => false
  | Some _ => true
  end.

(** Every field of a document is filled in. *)
Definition complete_doc (d : doc) : Prop :=
  meta_source d = "ai_engine" /\
  truthy (meta_severity d) = true /\
  is_undefined (log d) = false /\
  not_nullish (anomaly_score d) = true /\
  not_nullish (reason d) = true /\
  truthy (entities d) = true.

(** Timestamps grow strictly along the list. *)
Definition increasing (l : list saved) : Prop :=
  StronglySorted (fun a b => timestamp (body a) < timestamp (body b)) l.

(** The four levels in order of gravity. *)
Definition threat_rank (level : string) : nat :=
  if String.eqb level "high" then 3
  else if String.eqb level "medium" then 2
  else if String.eqb level "low" then 1
  else 0.

(** ** The dashboard client: log feed (LogFeed.jsx) *)

Module Feed.

(** The handler of the [log] event:
    [setLogs((prev) => [log, ...prev].slice(0, 200))]. *)
Definition on_log {A : Type} (log : A) (prev : list A) : list A :=
  firstn 200 (log :: prev).

(** The feed after the events of a list have arrived in that order. *)
Definition on_logs {A : Type} (events : list A) (init : list A) : list A :=
  fold_left (fun prev log => on_log log prev) events init.

(** [v === s] for a string literal [s]. *)
Definition is_string (v : value) (s : string) : bool :=
  match v with
  | Some (JStr t) => String.eqb t s
  | _ => false
  end.

(** The class of the severity badge of a row:
    [entry.log?.severity === 'E' ? ... : entry.log?.severity === 'W' ? ... : ...]. *)
Definition severity_class (entry : value) : completion string :=
  l <- member entry "log" ;;
  if is_string (opt_member l "severity") "E"
  then Normal "bg-red-500/20 text-red-400"
  else
    l' <- member entry "log" ;;
    if is_string (opt_member l' "severity") "W"
    then Normal "bg-yellow-500/20 text-yellow-400"
    else Normal "bg-slate-600/50 text-slate-300".

(** The text of the badge: [entry.log?.severity || entry.log?.s || 'I'],
    the expression the ingestion handler uses for [meta.severity]. *)
Definition severity_label (entry : value) : completion value :=
  severity_expr entry.

End Feed.

(** ** The dashboard client: threat gauge (Dashboard.jsx) *)

Module Gauge.

Record config : Type := { bg : string; text : string; label : string }.

Definition THREAT_COLORS : list (string * config) :=
  [("none", {| bg := "bg-emerald-500/20"; text := "text-emerald-400";
               label := "None" |});
   ("low", {| bg := "bg-yellow-500/20"; text := "text-yellow-400";
              label := "Low" |});
   ("medium", {| bg := "bg-orange-500/20"; text := "text-orange-400";
                 label := "Medium" |});
   ("high", {| bg := "bg-red-500/20"; text := "text-red-400";
               label := "High" |})].

Fixpoint own (k : string) (table : list (string * config)) : option config :=
  match table with
  | [] => None
  | (k', c) :: rest => if String.eqb k k' then Some c else own k rest
  end.

(** Names every object literal inherits a member for; such a member is
    truthy and has none of the fields [bg], [text], [label]. *)
Definition inherited (k : string) : bool :=
  existsb (String.eqb k)
    ["constructor"; "hasOwnProperty"; "isPrototypeOf";
     "propertyIsEnumerable"; "toLocaleString"; "toString"; "valueOf";
     "__proto__"; "__defineGetter__"; "__defineSetter__";
     "__lookupGetter__"; "__lookupSetter__"].

(** [THREAT_COLORS[level] || THREAT_COLORS.none]; [None] stands for an
    inherited member, whose fields all read [undefined]. *)
Definition config_of (level : string) : option config :=
  match own level THREAT_COLORS with
  | Some c => Some c
  | None => if inherited level then None else own "none" THREAT_COLORS
  end.

(** [level === 'none' ? 0 : level === 'low' ? 25 : level === 'medium' ? 60 : 100] *)
Definition pct (level : string) : Z :=
  if String.eqb level "none" then 0
  else if String.eqb level "low" then 25
  else if String.eqb level "medium" then 60
  else 100.

End Gauge.

(** No two records of the list have the same timestamp. *)
Definition distinct_timestamps (l : list saved) : Prop :=
  NoDup (map (fun r => timestamp (body r)) l).

(** [k] ingestions of a [null] log, one per tick from time [t] on. *)
Definition later_posts (t : Z) (k : nat) : list request :=
  map (fun i => PostLogs (t + Z.of_nat i) None (Some (JObj [("log", JNull)])))
      (seq 0 k).

(** * Properties *)

(** ** Evaluation of the ingestion handler *)

Lemma member_of_truthy (v : value) (k : string) :
  truthy v = true -> member v k = Normal (opt_member v k).
Proof.
  destruct v as [j|]; [destruct j|]; simpl; intro H;
    first [discriminate H | reflexivity].
Qed.

Lemma severity_expr_normal (payload : value) :
  truthy payload = true ->
  severity_expr payload =
    Normal (or_else (or_else (opt_member (opt_member payload "log") "severity")
                             (opt_member (opt_member payload "log") "s"))
                    (Some (JStr "I"))).
Proof.
  intro H. unfold severity_expr, or_else.
  rewrite (member_of_truthy payload "log" H). simpl.
  destruct (truthy (opt_member (opt_member payload "log") "severity")) eqn:Ea.
  - rewrite ?Ea. reflexivity.
  - rewrite ?Ea.
    destruct (truthy (opt_member (opt_member payload "log") "s")) eqn:Eb;
      rewrite ?Eb; reflexivity.
Qed.

Lemma build_doc_normal (now : Z) (payload : value) :
  truthy payload = true ->
  exists d, build_doc now payload = Normal d /\ doc_fields now payload d.
Proof.
  intro H. unfold build_doc.
  rewrite (severity_expr_normal payload H).
  rewrite !(member_of_truthy payload _ H). simpl.
  eexists. split; [reflexivity|].
  unfold doc_fields; simpl. repeat split; reflexivity.
Qed.

Lemma post_logs_rejects (now : Z) (fault : option string) (req : value)
    (st : store) :
  accepted req = false ->
  post_logs now fault req st = Normal (st, bad_request).
Proof.
  unfold accepted, post_logs. intro H.
  destruct (truthy req) eqn:Et; simpl in *; [|reflexivity].
  rewrite (member_of_truthy req "log" Et). simpl.
  apply negb_false_iff in H. rewrite H. reflexivity.
Qed.

Lemma post_logs_accepts (now : Z) (fault : option string) (req : value)
    (st : store) :
  accepted req = true ->
  exists d,
    build_doc now req = Normal d /\ doc_fields now req d /\
    post_logs now fault req st =
      match fault with
      | None =>
          let s := {| _id := next_id st; body := d |} in
          Normal ({| docs := docs st ++ [s]; next_id := S (next_id st) |},
                  [Stored s; Emit "log" s;
                   Respond 201 (CreatedBody (next_id st) true)])
      | Some m =>
          Normal (st, [StoreRejected m;
                       ConsoleError "[Backend] DB error:" m;
                       Respond 500 (ErrorBody "Failed to save log")])
      end.
Proof.
  unfold accepted. intro H. apply andb_true_iff in H as [Et Hl].
  apply negb_true_iff in Hl.
  destruct (build_doc_normal now req Et) as [d [Hd Hf]].
  exists d. split; [exact Hd|]. split; [exact Hf|].
  unfold post_logs. rewrite Et. simpl.
  rewrite (member_of_truthy req "log" Et). simpl. rewrite Hl.
  rewrite Hd. simpl. destruct fault; reflexivity.
Qed.

(** A JSON object with a [log] key passes the guard, whatever the value. *)
Lemma accepted_of_key (fields : list (string * json)) (v : json) :
  assoc "log" fields = Some v -> accepted (Some (JObj fields)) = true.
Proof.
  intro H. unfold accepted. simpl. rewrite H. reflexivity.
Qed.

Lemma split_at_emit (tr pre post : list event) (name : string) (s : saved) :
  tr = pre ++ Emit name s :: post -> In (Emit name s) tr.
Proof.
  intro H. subst tr. apply in_or_app. right. left. reflexivity.
Qed.

Lemma emits_follow_writes_success (s : saved) (r : event) :
  (forall n x, r <> Emit n x) ->
  emits_follow_writes [Stored s; Emit "log" s; r].
Proof.
  intros Hr pre name x post H.
  destruct pre as [|e0 pre]; simpl in H; [discriminate H|].
  injection H as He0 H. subst e0.
  destruct pre as [|e1 pre]; simpl in H.
  - injection H as Hn Hx _. subst name x. split; [reflexivity|].
    left. reflexivity.
  - injection H as He1 H.
    destruct pre as [|e2 pre]; simpl in H.
    + injection H as H _. exfalso. exact (Hr name x H).
    + injection H as _ H. destruct pre; discriminate H.
Qed.

Lemma no_emit_follow (tr : list event) :
  no_emit tr -> emits_follow_writes tr.
Proof.
  intros H pre name s post E. exfalso.
  exact (H name s (split_at_emit tr pre post name s E)).
Qed.

(** ** The descending sort of the query layer *)

Section Ordering.

Lemma insert_desc_perm (r : saved) (l : list saved) :
  Permutation (insert_desc r l) (r :: l).
Proof.
  induction l as [|x l IH]; simpl.
  - apply Permutation_refl.
  - destruct (timestamp (body x) <? timestamp (body r)).
    + apply Permutation_refl.
    + apply perm_trans with (x :: r :: l).
      * apply perm_skip. exact IH.
      * apply perm_swap.
Qed.

Lemma sort_desc_perm (l : list saved) : Permutation (sort_desc l) l.
Proof.
  induction l as [|x l IH]; simpl.
  - apply perm_nil.
  - apply perm_trans with (x :: sort_desc l).
    + apply insert_desc_perm.
    + apply perm_skip. exact IH.
Qed.

Lemma sort_desc_length (l : list saved) :
  List.length (sort_desc l) = List.length l.
Proof. apply Permutation_length, sort_desc_perm. Qed.

Lemma sort_desc_In (l : list saved) (r : saved) :
  In r (sort_desc l) <-> In r l.
Proof.
  split; apply Permutation_in;
    [apply sort_desc_perm | apply Permutation_sym, sort_desc_perm].
Qed.

Lemma insert_desc_sorted (r : saved) (l : list saved) :
  StronglySorted newer_first l ->
  StronglySorted newer_first (insert_desc r l).
Proof.
  induction 1 as [|x l Hs IH Hx]; simpl.
  - constructor; constructor.
  - destruct (timestamp (body x) <? timestamp (body r)) eqn:E.
    + apply Z.ltb_lt in E. constructor.
      * constructor; assumption.
      * constructor.
        -- unfold newer_first. lia.
        -- apply Forall_impl with (P := newer_first x); [|exact Hx].
           unfold newer_first. intros a Ha. lia.
    + apply Z.ltb_ge in E. constructor; [exact IH|].
      apply Forall_forall. intros a Ha.
      apply (Permutation_in _ (insert_desc_perm r l)) in Ha.
      destruct Ha as [Ha|Ha].
      * subst a. exact E.
      * rewrite Forall_forall in Hx. apply Hx, Ha.
Qed.

Lemma sort_desc_sorted (l : list saved) :
  StronglySorted newer_first (sort_desc l).
Proof.
  induction l as [|x l IH]; simpl.
  - constructor.
  - apply insert_desc_sorted, IH.
Qed.

Lemma sorted_app_inv (l1 l2 : list saved) :
  StronglySorted newer_first (l1 ++ l2) ->
  StronglySorted newer_first l1 /\ StronglySorted newer_first l2 /\
  (forall a b, In a l1 -> In b l2 -> newer_first a b).
Proof.
  induction l1 as [|x l1 IH]; simpl; intro H.
  - split; [constructor|]. split; [exact H|]. intros a b [].
  - inversion H as [|y l Hs Hx]; subst.
    destruct (IH Hs) as [H1 [H2 H3]].
    rewrite Forall_forall in Hx.
    split.
    + constructor; [exact H1|]. apply Forall_forall. intros a Ha.
      apply Hx, in_or_app. left. exact Ha.
    + split; [exact H2|]. intros a b [Ha|Ha] Hb.
      * subst a. apply Hx, in_or_app. right. exact Hb.
      * apply H3; assumption.
Qed.

Lemma sorted_firstn (n : nat) (l : list saved) :
  StronglySorted newer_first l -> StronglySorted newer_first (firstn n l).
Proof.
  intro H. rewrite <- (firstn_skipn n l) in H.
  apply sorted_app_inv in H. tauto.
Qed.

Lemma sorted_skipn (n : nat) (l : list saved) :
  StronglySorted newer_first l -> StronglySorted newer_first (skipn n l).
Proof.
  intro H. rewrite <- (firstn_skipn n l) in H.
  apply sorted_app_inv in H. tauto.
Qed.

(** A record newer than everything stored sorts to the front. *)
Lemma sort_desc_newest (l : list saved) (s : saved) :
  (forall r, In r l -> timestamp (body r) < timestamp (body s)) ->
  sort_desc (l ++ [s]) = s :: sort_desc l.
Proof.
  induction l as [|x l IH]; simpl; intro H.
  - reflexivity.
  - rewrite IH by (intros r Hr; apply H; right; exact Hr).
    simpl.
    assert (Hx : timestamp (body x) < timestamp (body s))
      by (apply H; left; reflexivity).
    replace (timestamp (body s) <? timestamp (body x)) with false
      by (symmetry; apply Z.ltb_ge; lia).
    reflexivity.
Qed.

Lemma filter_true (l : list saved) : filter (fun _ => true) l = l.
Proof.
  induction l as [|x l IH]; simpl; [reflexivity|]. rewrite IH. reflexivity.
Qed.

Lemma In_firstn_inv (n : nat) (l : list saved) (r : saved) :
  In r (firstn n l) -> In r l.
Proof.
  intro H. rewrite <- (firstn_skipn n l). apply in_or_app. left. exact H.
Qed.

Lemma In_skipn_inv (n : nat) (l : list saved) (r : saved) :
  In r (skipn n l) -> In r l.
Proof.
  intro H. rewrite <- (firstn_skipn n l). apply in_or_app. right. exact H.
Qed.

End Ordering.

(** ** The listing handler on well-formed page parameters *)

Lemma limit_default : limit_of None = 50.
Proof. reflexivity. Qed.

Lemma skip_default : skip_of None = 0.
Proof. reflexivity. Qed.

Lemma get_logs_ok (q_limit q_skip : option string) (st : store) :
  0 <= skip_of q_skip -> 0 < limit_of q_limit ->
  get_logs q_limit q_skip None st =
    [Respond 200
       (LogsBody (firstn (Z.to_nat (limit_of q_limit))
                    (skipn (Z.to_nat (skip_of q_skip)) (sort_desc (docs st))))
                 (List.length (docs st)))].
Proof.
  intros Hs Hl. unfold get_logs, page, find, countDocuments.
  rewrite filter_true.
  replace (skip_of q_skip <? 0) with false by (symmetry; apply Z.ltb_ge; lia).
  replace (limit_of q_limit =? 0) with false by (symmetry; apply Z.eqb_neq; lia).
  replace (Z.abs_nat (limit_of q_limit)) with (Z.to_nat (limit_of q_limit))
    by (rewrite Zabs2Nat.abs_nat_nonneg by lia; reflexivity).
  reflexivity.
Qed.

Lemma get_logs_default (st : store) :
  get_logs None None None st =
    [Respond 200 (LogsBody (firstn 50 (sort_desc (docs st)))
                           (List.length (docs st)))].
Proof.
  rewrite get_logs_ok by (rewrite ?limit_default, ?skip_default; lia).
  rewrite limit_default, skip_default. reflexivity.
Qed.

(** ** POST /api/logs: claims *)

Lemma post_logs_total (now : Z) (fault : option string) (req : value)
    (st : store) :
  exists out, post_logs now fault req st = Normal out.
Proof.
  destruct (accepted req) eqn:Ha.
  - destruct (post_logs_accepts now fault req st Ha) as [d [_ [_ Hp]]].
    rewrite Hp. destruct fault; eexists; reflexivity.
  - rewrite (post_logs_rejects now fault req st Ha). eexists. reflexivity.
Qed.

(** C1. The [log] event of a record is emitted only after storage has
    acknowledged the write of that record: in every trace of the ingestion
    handler each emit is preceded by the [Stored] event of the same record.
    When the write is rejected the handler answers 500, emits nothing,
    writes nothing and leaves the store as it was; when it succeeds the
    trace is write, emit, 201 in that order. *)
Theorem C1_broadcast_only_after_write :
  forall (now : Z) (fault : option string) (req : value) (st : store),
  exists st' tr,
    post_logs now fault req st = Normal (st', tr) /\
    emits_follow_writes tr /\
    (forall m, fault = Some m -> accepted req = true ->
       tr = [StoreRejected m; ConsoleError "[Backend] DB error:" m;
             Respond 500 (ErrorBody "Failed to save log")] /\
       no_emit tr /\ no_write tr /\ st' = st) /\
    (fault = None -> accepted req = true ->
       exists s, tr = [Stored s; Emit "log" s;
                       Respond 201 (CreatedBody (_id s) true)]).
Proof.
  intros now fault req st.
  destruct (accepted req) eqn:Ha.
  - destruct (post_logs_accepts now fault req st Ha) as [d [_ [_ Hp]]].
    destruct fault as [m|].
    + exists st. eexists. split; [exact Hp|].
      assert (Hne : no_emit [StoreRejected m;
                             ConsoleError "[Backend] DB error:" m;
                             Respond 500 (ErrorBody "Failed to save log")]).
      { intros n s [H|[H|[H|[]]]]; discriminate H. }
      split; [apply no_emit_follow, Hne|]. split.
      * intros m' Hm _. injection Hm as Hm. subst m'.
        split; [reflexivity|]. split; [exact Hne|]. split; [|reflexivity].
        intros s [H|[H|[H|[]]]]; discriminate H.
      * intro H; discriminate H.
    + eexists. eexists. split; [exact Hp|]. split.
      * apply emits_follow_writes_success. intros n x H. discriminate H.
      * split; [intros m H; discriminate H|].
        intros _ _. exists {| _id := next_id st; body := d |}. reflexivity.
  - exists st, bad_request. split; [apply post_logs_rejects, Ha|].
    split.
    + apply no_emit_follow. intros n s [H|[]]. discriminate H.
    + split; intros; discriminate.
Qed.

Lemma C1_broadcast_only_after_write_witness :
  exists st' tr,
    post_logs 7 (Some "write failed") (Some (JObj [("log", JNull)]))
      (store_of []) = Normal (st', tr) /\
    no_emit tr /\ st' = store_of [].
Proof.
  destruct (C1_broadcast_only_after_write 7 (Some "write failed")
              (Some (JObj [("log", JNull)])) (store_of []))
    as [st' [tr [Hp [_ [Hf _]]]]].
  exists st', tr. split; [exact Hp|].
  destruct (Hf "write failed" eq_refl eq_refl) as [_ [Hn [_ Hs]]].
  split; assumption.
Defined.

(** C2. A POST whose body lacks the [log] key, or that has no body, is
    answered with status 400 and the error descriptor; nothing is written,
    nothing is emitted, and the stored collection is unchanged. *)
Theorem C2_missing_log_is_rejected :
  forall (now : Z) (fault : option string) (req : value) (st : store),
    lacks_log req ->
    exists tr,
      post_logs now fault req st = Normal (st, tr) /\
      tr = [Respond 400 (ErrorBody "Invalid payload: log required")] /\
      no_write tr /\ no_emit tr.
Proof.
  intros now fault req st H. exists bad_request.
  split.
  - apply post_logs_rejects. unfold accepted. unfold lacks_log in H.
    rewrite H. simpl. apply andb_false_r.
  - split; [reflexivity|].
    split.
    + intros s [E|[]]. discriminate E.
    + intros n s [E|[]]. discriminate E.
Qed.

Lemma C2_missing_log_is_rejected_witness :
  exists tr,
    post_logs 7 None (Some (JObj [("reason", JStr "r")]))
      (store_of [rec_at 0 1 false]) =
      Normal (store_of [rec_at 0 1 false], tr) /\
    tr = [Respond 400 (ErrorBody "Invalid payload: log required")].
Proof.
  destruct (C2_missing_log_is_rejected 7 None
              (Some (JObj [("reason", JStr "r")]))
              (store_of [rec_at 0 1 false]) eq_refl)
    as [tr [Hp [Ht _]]].
  exists tr. split; assumption.
Defined.

Lemma opt_member_some (v : json) (k : string) :
  opt_member (Some v) k = get v k.
Proof. destruct v; reflexivity. Qed.

Lemma filter_length_perm (p : saved -> bool) (l1 l2 : list saved) :
  Permutation l1 l2 ->
  List.length (filter p l1) = List.length (filter p l2).
Proof.
  induction 1 as [|x l1 l2 Hp IH|x y l|l1 l2 l3 H12 IH12 H23 IH23]; simpl.
  - reflexivity.
  - destruct (p x); simpl; rewrite IH; reflexivity.
  - destruct (p x), (p y); reflexivity.
  - rewrite IH12. exact IH23.
Qed.

Lemma filter_all (p : saved -> bool) (l : list saved) :
  (forall r, In r l -> p r = true) -> filter p l = l.
Proof.
  induction l as [|x l IH]; simpl; intro H; [reflexivity|].
  rewrite (H x (or_introl eq_refl)), IH; [reflexivity|].
  intros r Hr. apply H. right. exact Hr.
Qed.

(** A stored record is on the first page as long as at most 50 stored
    records, itself included, are as new or newer. *)
Lemma listed_when_among_newest (st : store) (s : saved) :
  In s (docs st) ->
  (countDocuments
     (fun r => (timestamp (body s) <=? timestamp (body r))%Z) st <= 50)%nat ->
  exists logs,
    get_logs None None None st =
      [Respond 200 (LogsBody logs (List.length (docs st)))] /\
    In s logs.
Proof.
  intros Hin Hc. rewrite get_logs_default. eexists. split; [reflexivity|].
  set (p := fun r => timestamp (body s) <=? timestamp (body r)) in *.
  assert (Hs : In s (sort_desc (docs st))) by (apply sort_desc_In, Hin).
  destruct (in_split _ _ Hs) as [pre [post E]].
  assert (Hsorted := sort_desc_sorted (docs st)). rewrite E in Hsorted.
  destruct (sorted_app_inv _ _ Hsorted) as [_ [_ Hpre]].
  assert (Hlen : (List.length pre < 50)%nat).
  { unfold countDocuments in Hc.
    rewrite <- (filter_length_perm p _ _ (sort_desc_perm (docs st))) in Hc.
    rewrite E, filter_app, length_app in Hc.
    rewrite (filter_all p pre) in Hc.
    - simpl in Hc. unfold p at 1 in Hc. rewrite Z.leb_refl in Hc.
      simpl in Hc. lia.
    - intros r Hr. unfold p. apply Z.leb_le.
      apply (Hpre r s Hr). left. reflexivity. }
  rewrite E, firstn_app. apply in_or_app. right.
  destruct (50 - List.length pre)%nat as [|k] eqn:Ek; [lia|].
  left. reflexivity.
Qed.

(** C6, as stated, fails for a later GET: after an accepted ingestion at
    time 1 and 50 further accepted ingestions at times 2 to 51, each
    answered 201, GET /api/logs without parameters reports 51 records and
    lists the 50 of times 2 to 51, not the first one. *)
Lemma C6_listing_counterexample :
  match run (PostLogs 1 None (Some (JObj [("log", JNum (Num.of_Z 0))]))
               :: later_posts 2 50) (store_of []) with
  | Normal (st', tr) =>
      match docs st', get_logs None None None st' with
      | s :: _, [Respond 200 (LogsBody logs n)] =>
          forallb (fun r => Nat.eqb (fst r) 201) (responses tr) = true /\
          timestamp (body s) = 1 /\
          n = 51%nat /\ List.length logs = 50%nat /\
          forallb (fun r => 2 <=? timestamp (body r)) logs = true /\
          ~ In s logs
      | _, _ => False
      end
  | Throw _ => False
  end.
Proof.
  destruct (run _ (store_of [])) as [[st' tr]|m] eqn:E;
    vm_compute in E; [|discriminate E].
  injection E as Hs Ht. subst st' tr. cbn [docs].
  destruct (get_logs None None None _) as [|e l] eqn:G;
    vm_compute in G; [discriminate G|].
  injection G as He Hl. subst e l.
  split; [reflexivity|]. split; [reflexivity|]. split; [reflexivity|].
  split; [reflexivity|].
  match goal with
  | |- forallb ?f ?l = true /\ _ =>
      assert (Hnew : forallb f l = true) by (vm_compute; reflexivity)
  end.
  split; [exact Hnew|].
  intro Hin. rewrite forallb_forall in Hnew.
  apply Hnew in Hin. vm_compute in Hin. discriminate Hin.
Qed.

(** C6 (amended). A POST whose body has the [log] key, with any value,
    falsy scalars such as [null] or 0 included, passes validation; with
    [LogModel.create] resolving, the record it resolved with is appended to
    the collection and broadcast, and the answer is 201 with
    [{id, ok: true}], [id] being the identifier of that record.  A later
    GET /api/logs without parameters lists the record as long as at most
    50 stored records, itself included, are as new or newer, so whenever
    the collection holds at most 50 records; right after the ingestion it
    lists the record first when every earlier record is older. *)
Theorem C6_present_log_is_persisted :
  forall (now : Z) (fields : list (string * json)) (v : json) (st : store),
    assoc "log" fields = Some v ->
    accepted (Some (JObj fields)) = true /\
    exists s st',
      post_logs now None (Some (JObj fields)) st =
        Normal (st', [Stored s; Emit "log" s;
                      Respond 201 (CreatedBody (_id s) true)]) /\
      docs st' = docs st ++ [s] /\
      timestamp (body s) = now /\
      ((forall r, In r (docs st) -> timestamp (body r) < now) ->
       exists rest,
         get_logs None None None st' =
           [Respond 200 (LogsBody (s :: rest) (S (List.length (docs st))))]) /\
      (forall later : store,
         In s (docs later) ->
         (countDocuments
            (fun r => (timestamp (body s) <=? timestamp (body r))%Z) later
          <= 50)%nat ->
         exists logs,
           get_logs None None None later =
             [Respond 200 (LogsBody logs (List.length (docs later)))] /\
           In s logs) /\
      ((List.length (docs st) < 50)%nat ->
       exists logs,
         get_logs None None None st' =
           [Respond 200 (LogsBody logs (S (List.length (docs st))))] /\
         In s logs).
Proof.
  intros now fields v st Hk.
  split; [exact (accepted_of_key fields v Hk)|].
  destruct (post_logs_accepts now None (Some (JObj fields)) st
              (accepted_of_key fields v Hk)) as [d [_ [Hf Hp]]].
  destruct Hf as [Hts _].
  exists {| _id := next_id st; body := d |}. eexists.
  split; [exact Hp|]. split; [reflexivity|]. split; [exact Hts|].
  assert (Hlen : List.length (docs st ++ [{| _id := next_id st; body := d |}])
                 = S (List.length (docs st))).
  { rewrite length_app. simpl. lia. }
  split.
  { intro Hold. rewrite get_logs_default. simpl docs.
    rewrite sort_desc_newest.
    + simpl firstn. rewrite Hlen. eexists. reflexivity.
    + intros r Hr. simpl. rewrite Hts. apply Hold, Hr. }
  split.
  { intros later Hin Hc. apply listed_when_among_newest; assumption. }
  intro Hsmall. rewrite get_logs_default. simpl docs.
  rewrite Hlen. eexists. split; [reflexivity|].
  rewrite firstn_all2 by (rewrite sort_desc_length, Hlen; lia).
  apply sort_desc_In, in_or_app. right. left. reflexivity.
Qed.

Lemma C6_present_log_is_persisted_witness :
  exists s st',
    post_logs 7 None (Some (JObj [("log", JNull)])) (store_of []) =
      Normal (st', [Stored s; Emit "log" s;
                    Respond 201 (CreatedBody (_id s) true)]) /\
    docs st' = [s].
Proof.
  destruct (C6_present_log_is_persisted 7 [("log", JNull)] JNull
              (store_of []) eq_refl) as [_ [s [st' [Hp [Hd _]]]]].
  exists s, st'. split; assumption.
Defined.

Lemma post_logs_hands_over (now : Z) (fault : option string) (req : value)
    (st : store) (d : doc) :
  accepted req = true -> build_doc now req = Normal d ->
  post_logs now fault req st =
    match create st d fault with
    | (st', inl s) =>
        Normal (st', [Stored s; Emit "log" s;
                      Respond 201 (CreatedBody (_id s) true)])
    | (st', inr m) =>
        Normal (st', [StoreRejected m;
                      ConsoleError "[Backend] DB error:" m;
                      Respond 500 (ErrorBody "Failed to save log")])
    end.
Proof.
  unfold accepted. intros H Hd. apply andb_true_iff in H as [Et Hl].
  apply negb_true_iff in Hl.
  unfold post_logs. rewrite Et. simpl.
  rewrite (member_of_truthy req "log" Et). simpl. rewrite Hl, Hd.
  reflexivity.
Qed.

(** C7. For a payload with a [log] key the handler builds one document
    and hands it to [LogModel.create].  That document has: [timestamp]
    equal to the server's current time whatever the payload says;
    [meta.severity] equal to [log.severity] when that is truthy, else to
    [log.s] when that is truthy, else ["I"], so ["I"] when neither is
    present; [is_anomaly] and [model_used] the truth values of the
    payload's fields, so the string ["true"] becomes [true];
    [anomaly_score] 0 when absent or [null] and the payload's value
    otherwise; [reason] the payload's value when that is truthy and the
    empty string otherwise; [entities] the payload's value when that is
    truthy and the empty object otherwise.  The claim speaks of the stored
    record: what [LogModel.create] keeps of the empty object is outside
    this statement. *)
Theorem C7_document_handed_to_storage :
  forall (now : Z) (fields : list (string * json)) (v : json),
    assoc "log" fields = Some v ->
    exists d,
      build_doc now (Some (JObj fields)) = Normal d /\
      (forall fault st,
         post_logs now fault (Some (JObj fields)) st =
           match create st d fault with
           | (st', inl s) =>
               Normal (st', [Stored s; Emit "log" s;
                             Respond 201 (CreatedBody (_id s) true)])
           | (st', inr m) =>
               Normal (st', [StoreRejected m;
                             ConsoleError "[Backend] DB error:" m;
                             Respond 500 (ErrorBody "Failed to save log")])
           end) /\
      timestamp d = now /\
      log d = Some v /\
      meta_severity d =
        (if truthy (get v "severity") then get v "severity"
         else if truthy (get v "s") then get v "s"
         else Some (JStr "I")) /\
      (get v "severity" = undefined -> get v "s" = undefined ->
       meta_severity d = Some (JStr "I")) /\
      is_anomaly d = truthy (assoc "is_anomaly" fields) /\
      model_used d = truthy (assoc "model_used" fields) /\
      (assoc "is_anomaly" fields = Some (JStr "true") -> is_anomaly d = true) /\
      (assoc "anomaly_score" fields = None \/
       assoc "anomaly_score" fields = Some JNull ->
       anomaly_score d = Some (JNum (Num.of_Z 0))) /\
      (forall x, assoc "anomaly_score" fields = Some x -> x <> JNull ->
       anomaly_score d = Some x) /\
      (truthy (assoc "reason" fields) = true ->
       reason d = assoc "reason" fields) /\
      (truthy (assoc "reason" fields) = false ->
       reason d = Some (JStr "")) /\
      (truthy (assoc "entities" fields) = true ->
       entities d = assoc "entities" fields) /\
      (truthy (assoc "entities" fields) = false ->
       entities d = Some (JObj [])).
Proof.
  intros now fields v Hk.
  assert (Hacc := accepted_of_key fields v Hk).
  destruct (build_doc_normal now (Some (JObj fields)) eq_refl)
    as [d [Hd Hf]].
  destruct Hf as [Hts [_ [Hsev [Hlog [Hia [Hsc [Hr [Hen Hmu]]]]]]]].
  simpl opt_member in *. rewrite Hk in Hsev, Hlog.
  rewrite !opt_member_some in Hsev. unfold or_else in Hsev, Hr, Hen.
  exists d. split; [exact Hd|]. split.
  { intros fault st. apply post_logs_hands_over; assumption. }
  split; [exact Hts|]. split; [exact Hlog|]. split.
  { rewrite Hsev. destruct (truthy (get v "severity")) eqn:Ea.
    - rewrite ?Ea. reflexivity.
    - destruct (truthy (get v "s")) eqn:Eb; rewrite ?Eb; reflexivity. }
  split.
  { intros H1 H2. rewrite Hsev, H1, H2. reflexivity. }
  split; [exact Hia|]. split; [exact Hmu|]. split.
  { intro H. rewrite Hia, H. reflexivity. }
  split.
  { intros [H|H]; rewrite Hsc, H; reflexivity. }
  split.
  { intros x H Hx. rewrite Hsc, H. destruct x; try reflexivity.
    exfalso. apply Hx. reflexivity. }
  split.
  { intro H. rewrite Hr, H. reflexivity. }
  split.
  { intro H. rewrite Hr, H. reflexivity. }
  split.
  { intro H. rewrite Hen, H. reflexivity. }
  intro H. rewrite Hen, H. reflexivity.
Qed.

Lemma C7_document_handed_to_storage_witness :
  exists d,
    build_doc 7 (Some (JObj [("log", JObj [("msg", JStr "x")]);
                             ("is_anomaly", JStr "true");
                             ("timestamp", JNum (Num.of_Z 1))])) = Normal d /\
    timestamp d = 7 /\ is_anomaly d = true /\
    entities d = Some (JObj []).
Proof.
  destruct (C7_document_handed_to_storage 7
              [("log", JObj [("msg", JStr "x")]);
               ("is_anomaly", JStr "true");
               ("timestamp", JNum (Num.of_Z 1))]
              (JObj [("msg", JStr "x")]) eq_refl)
    as [d [Hd [_ [Ht [_ [_ [_ [_ [_ [Hi [_ [_ [_ [_ [_ He]]]]]]]]]]]]]]].
  exists d. split; [exact Hd|]. split; [exact Ht|].
  split; [exact (Hi eq_refl)|exact (He eq_refl)].
Defined.

(** C10. The ingestion handler never throws, whatever the request, and for
    an accepted payload whose [log] is [null] or a scalar the reads of
    [log.severity] and [log.s] give no value, the severity expression
    returns normally, and the document handed to storage, and stored when
    the write succeeds, has ["I"] as [meta.severity]. *)
Theorem C10_severity_never_raises :
  (forall (now : Z) (fault : option string) (req : value) (st : store),
     exists out, post_logs now fault req st = Normal out) /\
  (forall (now : Z) (fields : list (string * json)) (v : json) (st : store),
     assoc "log" fields = Some v -> scalar v = true ->
     opt_member (Some v) "severity" = undefined /\
     opt_member (Some v) "s" = undefined /\
     severity_expr (Some (JObj fields)) = Normal (Some (JStr "I")) /\
     exists d st' tr,
       build_doc now (Some (JObj fields)) = Normal d /\
       meta_severity d = Some (JStr "I") /\
       post_logs now None (Some (JObj fields)) st = Normal (st', tr) /\
       docs st' = docs st ++ [{| _id := next_id st; body := d |}]).
Proof.
  split.
  - intros now fault req st. apply post_logs_total.
  - intros now fields v st Hk Hs.
    assert (H1 : opt_member (Some v) "severity" = undefined)
      by (destruct v; try discriminate Hs; reflexivity).
    assert (H2 : opt_member (Some v) "s" = undefined)
      by (destruct v; try discriminate Hs; reflexivity).
    split; [exact H1|]. split; [exact H2|].
    assert (Ht : truthy (Some (JObj fields)) = true) by reflexivity.
    assert (Hsev : severity_expr (Some (JObj fields)) = Normal (Some (JStr "I"))).
    { rewrite (severity_expr_normal _ Ht). simpl opt_member at 1 3.
      rewrite Hk, H1, H2. reflexivity. }
    split; [exact Hsev|].
    destruct (post_logs_accepts now None (Some (JObj fields)) st
                (accepted_of_key fields v Hk)) as [d [Hd [Hf Hp]]].
    exists d. eexists. eexists. split; [exact Hd|].
    split; [|split; [exact Hp|reflexivity]].
    destruct Hf as [_ [_ [Hm _]]]. rewrite Hm.
    rewrite (severity_expr_normal _ Ht) in Hsev. injection Hsev as Hsev.
    exact Hsev.
Qed.

Lemma C10_severity_never_raises_witness :
  severity_expr (Some (JObj [("log", JNum (Num.of_Z 0))])) =
    Normal (Some (JStr "I")).
Proof.
  destruct C10_severity_never_raises as [_ H].
  destruct (H 7 [("log", JNum (Num.of_Z 0))] (JNum (Num.of_Z 0))
              (store_of []) eq_refl eq_refl) as [_ [_ [Hs _]]].
  exact Hs.
Defined.

(** ** GET /api/logs: claims *)

Lemma num_or_nonzero (n : option Z) (d : Z) : d <> 0 -> num_or n d <> 0.
Proof.
  intro Hd. destruct n as [z|]; simpl; [|exact Hd].
  destruct z; [exact Hd| |]; discriminate.
Qed.

(** The limit never exceeds 200 and is never zero. *)
Lemma limit_of_bounds (q : option string) :
  limit_of q <= 200 /\ limit_of q <> 0.
Proof.
  unfold limit_of. split; [apply Z.le_min_r|].
  assert (H := num_or_nonzero (parseInt (param_string q)) 50).
  destruct (Z.min_spec (num_or (parseInt (param_string q)) 50) 200)
    as [[_ E]|[_ E]]; rewrite E; [apply H|]; discriminate.
Qed.

(** A parameter in which [parseInt] finds no number, or finds zero, gives
    the default. *)
Lemma page_parameters_fall_back (q : option string) :
  parseInt (param_string q) = None \/ parseInt (param_string q) = Some 0 ->
  limit_of q = 50 /\ skip_of q = 0.
Proof.
  unfold limit_of, skip_of. intros [H|H]; rewrite H; split; reflexivity.
Qed.

(** C5. The limit is 50 when the parameter is absent and 200 for
    [limit=500], and the skip is 0 when absent; but a negative parameter is
    not replaced by the default: [limit=-5] gives the limit -5, where the
    claim says 50, and [skip=-3] gives the skip -3, where the claim says
    0. *)
Theorem C5_negative_page_parameters_pass_through :
  limit_of None = 50 /\
  limit_of (Some "500") = 200 /\
  skip_of None = 0 /\
  limit_of (Some "-5") = -5 /\
  skip_of (Some "-3") = -3.
Proof. repeat split; reflexivity. Qed.

(** C8. Whenever GET /api/logs answers with a listing, the listing is
    sorted by timestamp, newest first, consists of stored records, and the
    reported total is the number of records of the whole collection.  On
    page parameters that storage accepts the listing is the sorted
    collection after dropping [skip] records and keeping at most [limit],
    and the sorted collection is a rearrangement of the stored one.
    Records inserted at times T1 < T2 < T3 are listed, without parameters,
    as T3, T2, T1. *)
Theorem C8_listing_is_sorted_and_paged :
  (forall (q_limit q_skip : option string) (st : store)
          (logs : list saved) (n : nat),
     get_logs q_limit q_skip None st = [Respond 200 (LogsBody logs n)] ->
     StronglySorted newer_first logs /\
     n = List.length (docs st) /\
     (forall r, In r logs -> In r (docs st))) /\
  (forall (q_limit q_skip : option string) (st : store),
     0 <= skip_of q_skip -> 0 < limit_of q_limit ->
     exists logs,
       get_logs q_limit q_skip None st =
         [Respond 200 (LogsBody logs (List.length (docs st)))] /\
       logs = firstn (Z.to_nat (limit_of q_limit))
                (skipn (Z.to_nat (skip_of q_skip)) (sort_desc (docs st))) /\
       StronglySorted newer_first (sort_desc (docs st)) /\
       Permutation (sort_desc (docs st)) (docs st) /\
       (List.length logs <= Z.to_nat (limit_of q_limit))%nat) /\
  (forall (r1 r2 r3 : saved) (n : nat),
     timestamp (body r1) < timestamp (body r2) ->
     timestamp (body r2) < timestamp (body r3) ->
     get_logs None None None {| docs := [r1; r2; r3]; next_id := n |} =
       [Respond 200 (LogsBody [r3; r2; r1] 3)]).
Proof.
  split; [|split].
  - intros q_limit q_skip st logs n H.
    unfold get_logs, page, find, countDocuments in H.
    rewrite filter_true in H.
    destruct (skip_of q_skip <? 0); [discriminate H|].
    injection H as Hl Hn. subst n.
    assert (Hs : StronglySorted newer_first
                   (skipn (Z.to_nat (skip_of q_skip)) (sort_desc (docs st))))
      by apply sorted_skipn, sort_desc_sorted.
    assert (Hi : forall r,
               In r (skipn (Z.to_nat (skip_of q_skip)) (sort_desc (docs st))) ->
               In r (docs st)).
    { intros r Hr. apply sort_desc_In. apply In_skipn_inv in Hr. exact Hr. }
    destruct (limit_of q_limit =? 0); subst logs.
    + split; [exact Hs|]. split; [reflexivity|exact Hi].
    + split; [apply sorted_firstn, Hs|]. split; [reflexivity|].
      intros r Hr. apply Hi. apply In_firstn_inv in Hr. exact Hr.
  - intros q_limit q_skip st Hs Hl. eexists.
    split; [apply get_logs_ok; assumption|].
    split; [reflexivity|].
    split; [apply sort_desc_sorted|].
    split; [apply sort_desc_perm|].
    apply firstn_le_length.
  - intros r1 r2 r3 n H12 H23. rewrite get_logs_default.
    assert (E32 : (timestamp (body r3) <? timestamp (body r2)) = false)
      by (apply Z.ltb_ge; lia).
    assert (E31 : (timestamp (body r3) <? timestamp (body r1)) = false)
      by (apply Z.ltb_ge; lia).
    assert (E21 : (timestamp (body r2) <? timestamp (body r1)) = false)
      by (apply Z.ltb_ge; lia).
    cbn [docs sort_desc insert_desc List.length].
    rewrite E32. cbn [insert_desc]. rewrite E31, E21. reflexivity.
Qed.

Lemma C8_listing_is_sorted_and_paged_witness :
  get_logs None None None
    {| docs := [rec_at 0 10 false; rec_at 1 20 true; rec_at 2 30 false];
       next_id := 3 |} =
    [Respond 200
       (LogsBody [rec_at 2 30 false; rec_at 1 20 true; rec_at 0 10 false] 3)].
Proof.
  destruct C8_listing_is_sorted_and_paged as [_ [_ H]].
  apply (H (rec_at 0 10 false) (rec_at 1 20 true) (rec_at 2 30 false) 3%nat);
    simpl; lia.
Defined.

(** ** Comparison and rounding of numbers *)

Section Numbers.

Lemma SFcompare_antisym (x y : spec_float) :
  SFcompare y x = option_map CompOpp (SFcompare x y).
Proof.
  destruct x as [sx|sx| |sx mx ex], y as [sy|sy| |sy my ey]; simpl;
    try reflexivity;
    try (destruct sx; reflexivity); try (destruct sy; reflexivity);
    try (destruct sx, sy; reflexivity).
  assert (Hm := Pos.compare_antisym mx my). unfold Pos.compare in Hm.
  destruct sx, sy; simpl; try reflexivity;
    rewrite (Z.compare_antisym ex ey);
    destruct (ex ?= ey); simpl; try reflexivity;
    rewrite Hm; try rewrite CompOpp_involutive; reflexivity.
Qed.

(** [r <= c] excludes [r > c]. *)
Lemma le_not_gt (r c : Num.number) :
  Num.le r c = true -> Num.gt r c = false.
Proof.
  unfold Num.le, Num.gt, SFleb, SFltb. rewrite (SFcompare_antisym r c).
  destruct (SFcompare r c) as [[]|]; simpl; congruence.
Qed.

(** [round_half_up m (-k)] is the integer [n] with
    [n - 1/2 <= m / 2^k < n + 1/2]. *)
Lemma round_half_up_spec (m : Z) (k : positive) :
  let n := Num.round_half_up m (Zneg k) in
  (2 * n - 1) * 2 ^ Zpos k <= 2 * m < (2 * n + 1) * 2 ^ Zpos k.
Proof.
  cbv zeta. unfold Num.round_half_up.
  assert (Hp : 0 < 2 ^ Zpos k) by (apply Z.pow_pos_nonneg; lia).
  replace (2 ^ (Zpos k + 1)) with (2 * 2 ^ Zpos k)
    by (rewrite Z.pow_add_r by lia; lia).
  set (p := 2 ^ Zpos k) in *.
  assert (Hd := Z.div_mod (2 * m + p) (2 * p) ltac:(lia)).
  assert (Hr := Z.mod_pos_bound (2 * m + p) (2 * p) ltac:(lia)).
  set (n := (2 * m + p) / (2 * p)) in *.
  nia.
Qed.

Lemma of_Z_0 : Num.of_Z 0 = S754_zero false.
Proof. reflexivity. Qed.

Lemma of_Z_3 : Num.of_Z 3 = S754_finite false 6755399441055744 (-51).
Proof. vm_compute. reflexivity. Qed.

Lemma of_Z_10 : Num.of_Z 10 = S754_finite false 5629499534213120 (-49).
Proof. vm_compute. reflexivity. Qed.

(** A number above 0 and at most 3 is not above 10. *)
Lemma low_not_high (r : Num.number) :
  Num.gt r (Num.of_Z 0) = true -> Num.le r (Num.of_Z 3) = true ->
  Num.gt r (Num.of_Z 10) = false.
Proof.
  rewrite of_Z_0, of_Z_3, of_Z_10.
  unfold Num.gt, Num.le, SFltb, SFleb.
  destruct r as [s|s| |s m e]; cbn [SFcompare]; try discriminate.
  - destruct s; discriminate.
  - destruct s; [discriminate|].
    destruct (e ?= -51) eqn:E3; try discriminate.
    + apply Z.compare_eq in E3. subst e. reflexivity.
    + change (e < -51) in E3.
      replace (-49 ?= e) with Gt
        by (symmetry; apply Z.compare_gt_iff; lia).
      reflexivity.
Qed.

Lemma round_half_up_integer (m e : Z) :
  0 <= e -> Num.round_half_up m e = m * 2 ^ e.
Proof.
  intro H. unfold Num.round_half_up. destruct e; try reflexivity. lia.
Qed.

Lemma number_eqb_eq (x y : Num.number) : number_eqb x y = true -> x = y.
Proof.
  destruct x as [a|a| |a m e], y as [b|b| |b n f]; simpl;
    try discriminate; try reflexivity.
  - intro H. apply eqb_prop in H. subst b. reflexivity.
  - intro H. apply eqb_prop in H. subst b. reflexivity.
  - intro H. apply andb_true_iff in H as [H He].
    apply andb_true_iff in H as [Hs Hm].
    apply eqb_prop in Hs. apply Pos.eqb_eq in Hm. apply Z.eqb_eq in He.
    subst. reflexivity.
Qed.

Lemma agrees_below_sound (n t a : nat) :
  agrees_below n = true -> (t < n)%nat -> (a <= t)%nat ->
  round2 (anomaly_rate t a) = exact_rate_rounded t a.
Proof.
  unfold agrees_below. intros H Ht Ha. apply number_eqb_eq.
  rewrite forallb_forall in H.
  assert (Hin : In t (seq 0 n)) by (apply in_seq; lia).
  apply H in Hin. rewrite forallb_forall in Hin.
  apply Hin. apply in_seq. lia.
Qed.

Lemma agrees_below_51 : agrees_below 51 = true.
Proof. vm_compute. reflexivity. Qed.

(** Up to 50 records the double-precision rounding is the exact one. *)
Lemma rounding_exact_up_to_50 (t a : nat) :
  (t <= 50)%nat -> (a <= t)%nat ->
  round2 (anomaly_rate t a) = exact_rate_rounded t a.
Proof.
  intros Ht Ha. apply (agrees_below_sound 51 t a agrees_below_51); lia.
Qed.

End Numbers.

(** ** GET /api/stats: claims *)

(** The anomalous records of the window are among its records. *)
Lemma anomalies_le_total (cutoff : Z) (st : store) :
  (countDocuments (anomalous_in_window cutoff) st <=
   countDocuments (in_window cutoff) st)%nat.
Proof.
  unfold countDocuments. induction (docs st) as [|r l IH]; simpl; [lia|].
  unfold anomalous_in_window at 1.
  destruct (in_window cutoff r); simpl.
  - destruct (is_anomaly (body r)); simpl; lia.
  - exact IH.
Qed.

Lemma get_stats_ok (now : Z) (st : store) :
  get_stats now None st = [Respond 200 (StatsBody (stats_of now st))].
Proof. reflexivity. Qed.

(** C3. The threat level of a statistics response is computed from the
    rate before it is rounded, by strict comparisons against 10, 3 and 0:
    above 10 it is high, above 3 and at most 10 medium, above 0 and at most
    3 low, and none at zero.  A rate of exactly 10 (1 anomaly in 10) is
    medium and a rate of exactly 3 (3 in 100) is low; 3001 anomalies in
    30000 give high although the rounded rate 10.00 alone would give
    medium. *)
Theorem C3_threat_level_breakpoints :
  (forall (now : Z) (st : store),
     get_stats now None st = [Respond 200 (StatsBody (stats_of now st))] /\
     threatLevel (stats_of now st) =
       threat_level (anomaly_rate (total (stats_of now st))
                                  (anomalies (stats_of now st)))) /\
  (forall r, Num.gt r (Num.of_Z 10) = true -> threat_level r = "high") /\
  (forall r, Num.gt r (Num.of_Z 3) = true -> Num.le r (Num.of_Z 10) = true ->
             threat_level r = "medium") /\
  (forall r, Num.gt r (Num.of_Z 0) = true -> Num.le r (Num.of_Z 3) = true ->
             threat_level r = "low") /\
  (forall s, threat_level (S754_zero s) = "none") /\
  (anomaly_rate 10 1 = Num.of_Z 10 /\ threat_level (Num.of_Z 10) = "medium") /\
  (anomaly_rate 100 3 = Num.of_Z 3 /\ threat_level (Num.of_Z 3) = "low") /\
  (anomaly_rate 10 0 = Num.of_Z 0 /\ anomaly_rate 0 0 = Num.of_Z 0) /\
  (threat_level (anomaly_rate (Z.to_nat 30000) (Z.to_nat 3001)) = "high" /\
   threat_level (round2 (anomaly_rate (Z.to_nat 30000) (Z.to_nat 3001)))
     = "medium").
Proof.
  split; [intros now st; split; reflexivity|].
  split.
  { intros r H. unfold threat_level. rewrite H. reflexivity. }
  split.
  { intros r H3 H10. unfold threat_level.
    rewrite (le_not_gt r _ H10), H3. reflexivity. }
  split.
  { intros r H0 H3. unfold threat_level.
    rewrite (low_not_high r H0 H3), (le_not_gt r _ H3), H0. reflexivity. }
  split.
  { intro s. unfold threat_level. rewrite of_Z_10, of_Z_3, of_Z_0.
    destruct s; reflexivity. }
  repeat split; vm_compute; reflexivity.
Qed.

Lemma C3_threat_level_breakpoints_witness :
  threat_level (anomaly_rate 10 1) = "medium" /\
  threat_level (anomaly_rate 100 3) = "low" /\
  threat_level (anomaly_rate 10 2) = "high".
Proof.
  destruct C3_threat_level_breakpoints as [_ [Hh [Hm [Hl _]]]].
  split; [apply Hm; vm_compute; reflexivity|].
  split; [apply Hl; vm_compute; reflexivity|].
  apply Hh; vm_compute; reflexivity.
Defined.

(** C4, as stated, fails for 23 anomalies among 160 records: the exact rate
    14.375 rounds to 14.38, but the rate computed in double precision is
    14.374999999999998 and the response carries 14.37. *)
Lemma C4_rounding_counterexample :
  total (stats_of 0 (sample 160 23 0)) = 160%nat /\
  anomalies (stats_of 0 (sample 160 23 0)) = 23%nat /\
  anomalyRate (stats_of 0 (sample 160 23 0)) =
    Num.div (Num.of_Z 1437) (Num.of_Z 100) /\
  exact_rate_rounded 160 23 = Num.div (Num.of_Z 1438) (Num.of_Z 100) /\
  anomalyRate (stats_of 0 (sample 160 23 0)) <> exact_rate_rounded 160 23.
Proof.
  split; [vm_compute; reflexivity|].
  split; [vm_compute; reflexivity|].
  split; [vm_compute; reflexivity|].
  split; [vm_compute; reflexivity|].
  vm_compute. intro H. discriminate H.
Qed.

(** C4 (amended). In a statistics response [total] and [anomalies] count
    the records of the trailing 24 hours and the anomalous ones among them;
    [anomalyRate] is 0 when [total] is 0 and otherwise the double-precision
    value of [anomalies / total * 100], multiplied by 100, rounded to the
    nearest integer with ties going up, and divided by 100, where each step
    is a double-precision operation.  The integer that [Math.round] returns
    for a number [m / 2^k] is the [n] with [n - 1/2 <= m / 2^k < n + 1/2].
    For a window of at most 50 records the result is the exact rate
    rounded to two decimals with ties going up.  With 10 records in the
    window, 2 of them anomalous, the response has total 10, anomalies 2,
    anomalyRate 20 and threatLevel high. *)
Theorem C4_anomaly_rate_rounding :
  (forall (now : Z) (st : store),
     let s := stats_of now st in
     get_stats now None st = [Respond 200 (StatsBody s)] /\
     total s = countDocuments (in_window (now - 86400000)) st /\
     anomalies s = countDocuments (anomalous_in_window (now - 86400000)) st /\
     (total s = 0%nat -> anomalyRate s = Num.of_Z 0) /\
     ((0 < total s)%nat ->
      anomalyRate s =
        Num.div
          (Num.Math_round
             (Num.mul
                (Num.mul (Num.div (Num.of_nat (anomalies s))
                                  (Num.of_nat (total s)))
                         (Num.of_Z 100))
                (Num.of_Z 100)))
          (Num.of_Z 100))) /\
  (forall (sg : bool) (m k : positive),
     let n := Num.round_half_up (cond_Zopp sg (Zpos m)) (Zneg k) in
     Num.Math_round (S754_finite sg m (Zneg k)) =
       (if n =? 0 then S754_zero sg else Num.of_Z n) /\
     (2 * n - 1) * 2 ^ Zpos k <= 2 * cond_Zopp sg (Zpos m)
       < (2 * n + 1) * 2 ^ Zpos k) /\
  (forall (now : Z) (st : store),
     (total (stats_of now st) <= 50)%nat ->
     anomalyRate (stats_of now st) =
       exact_rate_rounded (total (stats_of now st))
                          (anomalies (stats_of now st))) /\
  (forall (now : Z) (st : store),
     total (stats_of now st) = 10%nat ->
     anomalies (stats_of now st) = 2%nat ->
     anomalyRate (stats_of now st) = Num.of_Z 20 /\
     threatLevel (stats_of now st) = "high").
Proof.
  split.
  - intros now st. cbv zeta.
    split; [reflexivity|]. split; [reflexivity|]. split; [reflexivity|].
    split.
    + intro H. unfold stats_of in *. cbn [total anomalyRate] in *.
      rewrite H. vm_compute. reflexivity.
    + intro H. unfold stats_of in *. cbn [total anomalies anomalyRate] in *.
      unfold round2, anomaly_rate.
      apply Nat.ltb_lt in H. rewrite H. reflexivity.
  - split.
    + intros sg m k. cbv zeta. split; [reflexivity|].
      apply round_half_up_spec.
    + split.
      * intros now st Ht. unfold stats_of in *.
        cbn [total anomalies anomalyRate] in *.
        apply rounding_exact_up_to_50; [exact Ht|].
        apply anomalies_le_total.
      * intros now st Ht Ha. unfold stats_of in *.
        cbn [total anomalies anomalyRate threatLevel] in *.
        rewrite Ht, Ha. split; vm_compute; reflexivity.
Qed.

Lemma C4_anomaly_rate_rounding_witness :
  anomalyRate (stats_of 5 (sample 10 2 5)) = Num.of_Z 20 /\
  threatLevel (stats_of 5 (sample 10 2 5)) = "high" /\
  anomalyRate (stats_of 5 (store_of [])) = Num.of_Z 0.
Proof.
  destruct C4_anomaly_rate_rounding as [Hg [_ [_ He]]].
  destruct (He 5 (sample 10 2 5)) as [H1 H2];
    [vm_compute; reflexivity | vm_compute; reflexivity |].
  split; [exact H1|]. split; [exact H2|].
  destruct (Hg 5 (store_of [])) as [_ [_ [_ [H0 _]]]].
  apply H0. reflexivity.
Defined.

(** C9. [recentAnomalies] is the projection of at most 100 stored records,
    each of them in the trailing 24-hour window and anomalous, listed
    newest first; the records left out are no newer than the ones listed.
    Every entry has the four fields timestamp, msg, reason and score, where
    msg is [log.msg], undefined when [log] has none, and score is
    [anomaly_score]. *)
Theorem C9_recent_anomalies :
  forall (now : Z) (st : store),
    let cutoff := now - 86400000 in
    exists rs rest,
      get_stats now None st = [Respond 200 (StatsBody (stats_of now st))] /\
      recentAnomalies (stats_of now st) = map project rs /\
      (List.length (recentAnomalies (stats_of now st)) <= 100)%nat /\
      (forall r, In r rs ->
         In r (docs st) /\ cutoff <= timestamp (body r) /\
         is_anomaly (body r) = true) /\
      StronglySorted newer_first rs /\
      Permutation (rs ++ rest) (filter (anomalous_in_window cutoff) (docs st)) /\
      (forall a b, In a rs -> In b rest -> newer_first a b) /\
      (rest <> [] -> List.length rs = 100%nat) /\
      (forall r,
         View.timestamp (project r) = timestamp (body r) /\
         View.msg (project r) = opt_member (log (body r)) "msg" /\
         View.reason (project r) = reason (body r) /\
         View.score (project r) = anomaly_score (body r)) /\
      (forall r, (forall o, log (body r) <> Some (JObj o)) ->
                 View.msg (project r) = undefined).
Proof.
  intros now st. cbv zeta.
  set (p := anomalous_in_window (now - 86400000)).
  set (sorted := sort_desc (filter p (docs st))).
  exists (firstn 100 sorted), (skipn 100 sorted).
  assert (Hs : StronglySorted newer_first sorted) by apply sort_desc_sorted.
  split; [reflexivity|]. split; [reflexivity|]. split.
  { change (recentAnomalies (stats_of now st))
      with (map project (firstn 100 sorted)).
    rewrite length_map. apply firstn_le_length. }
  split.
  { intros r Hr. apply In_firstn_inv in Hr.
    apply (proj1 (sort_desc_In _ _)) in Hr.
    apply filter_In in Hr as [Hin Hp]. unfold p, anomalous_in_window in Hp.
    apply andb_true_iff in Hp as [Hw Ha]. unfold in_window in Hw.
    apply Z.leb_le in Hw. repeat split; assumption. }
  split; [apply sorted_firstn, Hs|]. split.
  { rewrite firstn_skipn. apply sort_desc_perm. }
  split.
  { rewrite <- (firstn_skipn 100 sorted) in Hs.
    apply sorted_app_inv in Hs. apply Hs. }
  split.
  { intro Hne. apply firstn_length_le.
    destruct (Nat.le_gt_cases 100 (List.length sorted)) as [H|H];
      [exact H|].
    exfalso. apply Hne. apply skipn_all2. lia. }
  split.
  { intro r. repeat split; reflexivity. }
  intros r Hr. unfold project. cbn [View.msg].
  destruct (log (body r)) as [j|]; [|reflexivity].
  destruct j; try reflexivity. exfalso. apply (Hr fields). reflexivity.
Qed.

Lemma C9_recent_anomalies_witness :
  exists rs,
    recentAnomalies
      (stats_of 100000000
         (store_of [rec_at 0 1 true; rec_at 1 99999000 true;
                    rec_at 2 99999500 false; rec_at 3 99999900 true])) =
      map project rs /\
    (forall r, In r rs -> 100000000 - 86400000 <= timestamp (body r) /\
                          is_anomaly (body r) = true) /\
    StronglySorted newer_first rs.
Proof.
  destruct (C9_recent_anomalies 100000000
              (store_of [rec_at 0 1 true; rec_at 1 99999000 true;
                         rec_at 2 99999500 false; rec_at 3 99999900 true]))
    as [rs [rest [_ [H [_ [Hin [Hs _]]]]]]].
  exists rs. split; [exact H|]. split; [|exact Hs].
  intros r Hr. destruct (Hin r Hr) as [_ Hw]. exact Hw.
Defined.

(** * Further properties of the handlers *)

(** ** Runs of requests *)

Lemma emitted_app (a b : list event) : emitted (a ++ b) = emitted a ++ emitted b.
Proof.
  induction a as [|e a IH]; simpl; [reflexivity|].
  destruct e; simpl; rewrite IH; reflexivity.
Qed.

Lemma stored_app (a b : list event) : stored (a ++ b) = stored a ++ stored b.
Proof.
  induction a as [|e a IH]; simpl; [reflexivity|].
  destruct e; simpl; rewrite IH; reflexivity.
Qed.

Lemma responses_app (a b : list event) :
  responses (a ++ b) = responses a ++ responses b.
Proof.
  induction a as [|e a IH]; simpl; [reflexivity|].
  destruct e; simpl; rewrite IH; reflexivity.
Qed.

(** What one request does to the store and what it sends. *)
Lemma serve_effect (rq : request) (st : store) :
  exists st' tr r,
    serve rq st = Normal (st', tr) /\
    docs st' = docs st ++ emitted tr /\
    stored tr = emitted tr /\
    responses tr = [r] /\ well_formed_response r = true.
Proof.
  destruct rq as [now fault req|now fault|ql qs fault]; simpl.
  - destruct (accepted req) eqn:Ha.
    + destruct (post_logs_accepts now fault req st Ha) as [d [_ [_ Hp]]].
      rewrite Hp. destruct fault as [m|]; cbv zeta.
      * exists st. do 2 eexists. split; [reflexivity|]. simpl.
        rewrite app_nil_r. repeat split; reflexivity.
      * do 3 eexists. split; [reflexivity|]. simpl.
        repeat split; reflexivity.
    + rewrite (post_logs_rejects now fault req st Ha).
      exists st. do 2 eexists. split; [reflexivity|]. simpl.
      rewrite app_nil_r. repeat split; reflexivity.
  - exists st. destruct fault as [m|]; simpl; do 2 eexists;
      (split; [reflexivity|]); simpl; rewrite app_nil_r;
      repeat split; reflexivity.
  - exists st. unfold get_logs. destruct fault as [m|].
    + do 2 eexists. split; [reflexivity|]. simpl. rewrite app_nil_r.
      repeat split; reflexivity.
    + destruct (page _ _ _); do 2 eexists; (split; [reflexivity|]); simpl;
        rewrite app_nil_r; repeat split; reflexivity.
Qed.

Lemma run_effect (rqs : list request) (st : store) :
  exists st' tr,
    run rqs st = Normal (st', tr) /\
    docs st' = docs st ++ emitted tr /\
    stored tr = emitted tr /\
    List.length (responses tr) = List.length rqs /\
    forallb well_formed_response (responses tr) = true.
Proof.
  revert st. induction rqs as [|rq rqs IH]; intro st.
  - exists st, []. simpl. rewrite app_nil_r. repeat split; reflexivity.
  - destruct (serve_effect rq st) as [st1 [tr1 [r [Hs [Hd [He [Hr Hw]]]]]]].
    destruct (IH st1) as [st2 [tr2 [Hrun [Hd2 [He2 [Hl Hf]]]]]].
    exists st2, (tr1 ++ tr2). simpl. rewrite Hs. simpl. rewrite Hrun. simpl.
    split; [reflexivity|].
    rewrite emitted_app, stored_app, responses_app, Hd2, Hd, He, He2, Hr,
            app_assoc.
    simpl. rewrite Hl, Hw, Hf. repeat split; reflexivity.
Qed.

(** X1. Whatever requests are served, in whatever order and with whatever
    storage faults, no handler throws, the collection only grows at its
    end, and the records added are exactly the records broadcast, which are
    exactly the records storage acknowledged, in the same order. *)
Theorem run_appends_what_it_broadcasts :
  forall (rqs : list request) (st : store),
  exists st' tr,
    run rqs st = Normal (st', tr) /\
    docs st' = docs st ++ emitted tr /\
    stored tr = emitted tr.
Proof.
  intros rqs st.
  destruct (run_effect rqs st) as [st' [tr [Hr [Hd [He _]]]]].
  exists st', tr. repeat split; assumption.
Qed.

(** X2. Every request is answered exactly once, and the answer fits its
    status: 201 carries the identifier with [ok: true], 400 and 500 carry
    an error descriptor, 200 carries data. *)
Theorem run_answers_each_request_once :
  forall (rqs : list request) (st : store),
  exists st' tr,
    run rqs st = Normal (st', tr) /\
    List.length (responses tr) = List.length rqs /\
    forallb well_formed_response (responses tr) = true.
Proof.
  intros rqs st.
  destruct (run_effect rqs st) as [st' [tr [Hr [_ [_ [Hl Hf]]]]]].
  exists st', tr. repeat split; assumption.
Qed.

(** ** Documents built by the ingestion handler *)

Lemma or_else_default_not_nullish (a d : value) :
  not_nullish d = true -> not_nullish (or_else a d) = true.
Proof.
  intro Hd. unfold or_else. destruct (truthy a) eqn:E; [|exact Hd].
  destruct a as [j|]; [destruct j|]; try discriminate E; reflexivity.
Qed.

Lemma or_else_truthy (a d : value) :
  truthy d = true -> truthy (or_else a d) = true.
Proof.
  intro Hd. unfold or_else. destruct (truthy a) eqn:E; assumption.
Qed.

Lemma build_doc_complete (now : Z) (req : value) (d : doc) :
  accepted req = true -> build_doc now req = Normal d ->
  complete_doc d /\ timestamp d = now.
Proof.
  intros Ha Hb. assert (Hacc := Ha).
  unfold accepted in Ha. apply andb_true_iff in Ha as [Ht Hl].
  destruct (build_doc_normal now req Ht) as [d' [Hd' Hf]].
  rewrite Hb in Hd'. injection Hd' as Hd'. subst d'.
  destruct Hf as [Hts [Hsrc [Hsev [Hlog [_ [Hsc [Hr [Hen _]]]]]]]].
  split; [|exact Hts].
  unfold complete_doc. split; [exact Hsrc|]. split.
  { rewrite Hsev. apply or_else_truthy. reflexivity. }
  split.
  { rewrite Hlog. apply negb_true_iff in Hl. exact Hl. }
  split.
  { rewrite Hsc. destruct (opt_member req "anomaly_score") as [j|];
      [destruct j|]; reflexivity. }
  split.
  { rewrite Hr. apply or_else_default_not_nullish. reflexivity. }
  rewrite Hen. apply or_else_truthy. reflexivity.
Qed.

(** X3. Every document the ingestion handler hands to [LogModel.create]
    is complete: the source is ["ai_engine"], the severity is truthy, the
    log is not [undefined], the score and the reason are neither [null]
    nor [undefined], the entities are truthy, and the timestamp is the
    time of the request. *)
Theorem built_document_is_complete :
  forall (now : Z) (req : value),
    accepted req = true ->
    exists d,
      build_doc now req = Normal d /\
      complete_doc d /\ timestamp d = now /\
      forall fault st,
        post_logs now fault req st =
          match create st d fault with
          | (st', inl s) =>
              Normal (st', [Stored s; Emit "log" s;
                            Respond 201 (CreatedBody (_id s) true)])
          | (st', inr m) =>
              Normal (st', [StoreRejected m;
                            ConsoleError "[Backend] DB error:" m;
                            Respond 500 (ErrorBody "Failed to save log")])
          end.
Proof.
  intros now req Ha. assert (Hacc := Ha).
  unfold accepted in Ha. apply andb_true_iff in Ha as [Ht _].
  destruct (build_doc_normal now req Ht) as [d [Hd _]].
  exists d. split; [exact Hd|].
  destruct (build_doc_complete now req d Hacc Hd) as [Hc Hts].
  split; [exact Hc|]. split; [exact Hts|].
  intros fault st. apply post_logs_hands_over; assumption.
Qed.

Lemma built_document_is_complete_witness :
  exists d,
    build_doc 8 (Some (JObj [("log", JNum (Num.of_Z 0));
                             ("reason", JNull);
                             ("anomaly_score", JNull)])) = Normal d /\
    complete_doc d.
Proof.
  destruct (built_document_is_complete 8
              (Some (JObj [("log", JNum (Num.of_Z 0));
                           ("reason", JNull);
                           ("anomaly_score", JNull)])) eq_refl)
    as [d [Hd [Hc _]]].
  exists d. split; assumption.
Defined.

(** X4. The ingestion handler reads the six payload fields log,
    is_anomaly, anomaly_score, reason, entities and model_used and nothing
    else: two bodies that agree on them are handled identically, so a
    caller cannot set the timestamp, the identifier or the source. *)
Theorem other_payload_fields_are_ignored :
  forall (now : Z) (fault : option string) (st : store)
         (fields1 fields2 : list (string * json)),
    (forall k, In k read_fields -> assoc k fields1 = assoc k fields2) ->
    post_logs now fault (Some (JObj fields1)) st =
    post_logs now fault (Some (JObj fields2)) st.
Proof.
  intros now fault st f1 f2 H.
  assert (Hk : forall k, In k read_fields ->
                 opt_member (Some (JObj f1)) k = opt_member (Some (JObj f2)) k).
  { intros k Hin. simpl. apply H, Hin. }
  assert (Hacc : accepted (Some (JObj f1)) = accepted (Some (JObj f2))).
  { unfold accepted. rewrite (Hk "log") by (simpl; tauto). reflexivity. }
  destruct (accepted (Some (JObj f1))) eqn:Ha1; symmetry in Hacc.
  - destruct (post_logs_accepts now fault _ st Ha1) as [d1 [_ [F1 P1]]].
    destruct (post_logs_accepts now fault _ st Hacc) as [d2 [_ [F2 P2]]].
    rewrite P1, P2.
    assert (Hd : d1 = d2).
    { unfold doc_fields in F1, F2.
      rewrite <- !(Hk "log"), <- !(Hk "is_anomaly"), <- !(Hk "anomaly_score"),
              <- !(Hk "reason"), <- !(Hk "entities"), <- !(Hk "model_used")
        in F2 by (simpl; tauto).
      destruct d1, d2. simpl in F1, F2.
      destruct F1 as [? [? [? [? [? [? [? [? ?]]]]]]]].
      destruct F2 as [? [? [? [? [? [? [? [? ?]]]]]]]].
      subst. reflexivity. }
    rewrite Hd. reflexivity.
  - rewrite (post_logs_rejects now fault _ st Ha1),
            (post_logs_rejects now fault _ st Hacc). reflexivity.
Qed.

Lemma other_payload_fields_are_ignored_witness :
  post_logs 9 None
    (Some (JObj [("timestamp", JNum (Num.of_Z 1)); ("log", JNull);
                 ("_id", JStr "forged")])) (store_of []) =
  post_logs 9 None (Some (JObj [("log", JNull)])) (store_of []).
Proof.
  apply other_payload_fields_are_ignored.
  intros k Hk. simpl in Hk.
  repeat (destruct Hk as [Hk|Hk]; [subst k; reflexivity|]).
  destruct Hk.
Defined.

(** ** Statistics *)

Lemma countDocuments_app (p : saved -> bool) (l : list saved) (s : saved) (n m : nat) :
  countDocuments p {| docs := l ++ [s]; next_id := n |} =
    (countDocuments p {| docs := l; next_id := m |} + (if p s then 1 else 0))%nat.
Proof.
  unfold countDocuments. simpl. rewrite filter_app, length_app. simpl.
  destruct (p s); reflexivity.
Qed.

(** X5. A record that has just been ingested is counted by the statistics
    for the following 24 hours: for a statistics request at a time whose
    window still reaches the ingestion time, [total] is one more than
    without the record and [anomalies] is one more exactly when the
    payload's [is_anomaly] is truthy; once the window has passed the
    record, both counts are what they were. *)
Theorem ingested_record_is_counted :
  forall (now later : Z) (fields : list (string * json)) (v : json)
         (st : store),
    assoc "log" fields = Some v ->
    exists st' tr,
      post_logs now None (Some (JObj fields)) st = Normal (st', tr) /\
      (later - 86400000 <= now ->
       total (stats_of later st') = S (total (stats_of later st)) /\
       anomalies (stats_of later st') =
         (anomalies (stats_of later st) +
          (if truthy (assoc "is_anomaly" fields) then 1 else 0))%nat) /\
      (now < later - 86400000 ->
       total (stats_of later st') = total (stats_of later st) /\
       anomalies (stats_of later st') = anomalies (stats_of later st)).
Proof.
  intros now later fields v st Hk.
  destruct (post_logs_accepts now None (Some (JObj fields)) st
              (accepted_of_key fields v Hk)) as [d [_ [Hf Hp]]].
  destruct Hf as [Hts [_ [_ [_ [Hia _]]]]]. simpl in Hia.
  eexists. eexists. split; [exact Hp|].
  unfold stats_of. cbn [total anomalies].
  change (later - 24 * 60 * 60 * 1000) with (later - 86400000).
  destruct st as [l n]. cbn [docs next_id].
  rewrite !(countDocuments_app _ l _ (S n) n).
  unfold anomalous_in_window, in_window. cbn [body timestamp is_anomaly].
  rewrite Hts, Hia.
  split; intro H.
  - replace (later - 86400000 <=? now) with true
      by (symmetry; apply Z.leb_le; lia).
    simpl. split; [lia|reflexivity].
  - replace (later - 86400000 <=? now) with false
      by (symmetry; apply Z.leb_gt; lia).
    simpl. split; lia.
Qed.

Lemma ingested_record_is_counted_witness :
  exists st' tr,
    post_logs 1000 None
      (Some (JObj [("log", JNull); ("is_anomaly", JNum (Num.of_Z 1))]))
      (sample 3 1 900) = Normal (st', tr) /\
    total (stats_of 2000 st') = 4%nat /\
    anomalies (stats_of 2000 st') = 2%nat.
Proof.
  destruct (ingested_record_is_counted 1000 2000
              [("log", JNull); ("is_anomaly", JNum (Num.of_Z 1))] JNull
              (sample 3 1 900) eq_refl) as [st' [tr [Hp [Hin _]]]].
  exists st', tr. split; [exact Hp|].
  destruct (Hin ltac:(lia)) as [Ht Ha]. rewrite Ht, Ha.
  split; vm_compute; reflexivity.
Defined.

(** X6. In every statistics response the anomalies are at most the total,
    the total is at most the number of records the listing reports, and
    [recentAnomalies] has exactly [min 100 anomalies] entries: all the
    anomalous records of the window when there are at most 100, and 100 of
    them otherwise. *)
Theorem stats_counts_are_consistent :
  forall (now : Z) (st : store),
    (anomalies (stats_of now st) <= total (stats_of now st))%nat /\
    (total (stats_of now st) <= countDocuments (fun _ => true) st)%nat /\
    List.length (recentAnomalies (stats_of now st)) =
      Nat.min 100 (anomalies (stats_of now st)).
Proof.
  intros now st. split; [apply anomalies_le_total|]. split.
  - unfold stats_of, countDocuments. cbn [total].
    rewrite filter_true. apply filter_length_le.
  - unfold stats_of. cbn [recentAnomalies anomalies].
    rewrite length_map, length_firstn, sort_desc_length. reflexivity.
Qed.

(** X7. When no stored record lies in the trailing 24 hours, whatever the
    collection holds, the response is total 0, anomalies 0, anomalyRate 0,
    threatLevel none and no recent anomalies. *)
Theorem stats_of_empty_window :
  forall (now : Z) (st : store),
    (forall r, In r (docs st) -> timestamp (body r) < now - 86400000) ->
    get_stats now None st =
      [Respond 200
         (StatsBody {| total := 0; anomalies := 0;
                       anomalyRate := Num.of_Z 0; threatLevel := "none";
                       recentAnomalies := [] |})].
Proof.
  intros now st H.
  assert (Hw : filter (in_window (now - 86400000)) (docs st) = []).
  { induction (docs st) as [|r l IH]; simpl; [reflexivity|].
    unfold in_window at 1.
    replace (now - 86400000 <=? timestamp (body r)) with false
      by (symmetry; apply Z.leb_gt; apply H; left; reflexivity).
    apply IH. intros x Hx. apply H. right. exact Hx. }
  assert (Ha : filter (anomalous_in_window (now - 86400000)) (docs st) = []).
  { clear Hw. induction (docs st) as [|r l IH]; simpl; [reflexivity|].
    unfold anomalous_in_window at 1, in_window.
    replace (now - 86400000 <=? timestamp (body r)) with false
      by (symmetry; apply Z.leb_gt; apply H; left; reflexivity).
    simpl. apply IH. intros x Hx. apply H. right. exact Hx. }
  unfold get_stats, stats_of, countDocuments, find.
  change (now - 24 * 60 * 60 * 1000) with (now - 86400000).
  rewrite Hw, Ha. vm_compute. reflexivity.
Qed.

Lemma stats_of_empty_window_witness :
  get_stats 100000000 None (sample 5 2 7) =
    [Respond 200
       (StatsBody {| total := 0; anomalies := 0;
                     anomalyRate := Num.of_Z 0; threatLevel := "none";
                     recentAnomalies := [] |})].
Proof.
  apply stats_of_empty_window. intros r Hr.
  vm_compute in Hr.
  repeat (destruct Hr as [Hr|Hr]; [subst r; vm_compute; reflexivity|]).
  destruct Hr.
Defined.

(** ** Listing *)

(** X8. A limit parameter never yields a limit above 200 or equal to 0,
    and a listing answered for a positive limit has at most 200 records
    (at most 50 when the parameter is absent). *)
Theorem listing_has_at_most_200_records :
  forall (q_limit q_skip : option string) (fault : option string)
         (st : store),
    limit_of q_limit <= 200 /\ limit_of q_limit <> 0 /\
    forall logs n,
      get_logs q_limit q_skip fault st = [Respond 200 (LogsBody logs n)] ->
      0 < limit_of q_limit ->
      (List.length logs <= 200)%nat /\
      (q_limit = None -> (List.length logs <= 50)%nat).
Proof.
  intros ql qs fault st.
  destruct (limit_of_bounds ql) as [Hle Hnz].
  split; [exact Hle|]. split; [exact Hnz|].
  intros logs n H Hpos. unfold get_logs, page in H.
  destruct fault as [m|]; [discriminate H|].
  destruct (skip_of qs <? 0); [discriminate H|].
  replace (limit_of ql =? 0) with false in H
    by (symmetry; apply Z.eqb_neq; exact Hnz).
  injection H as Hl _. subst logs.
  assert (Hn : (List.length
                  (firstn (Z.abs_nat (limit_of ql))
                     (skipn (Z.to_nat (skip_of qs))
                        (sort_desc (find (fun _ => true) st))))
                <= Z.abs_nat (limit_of ql))%nat) by apply firstn_le_length.
  split; [lia|]. intro Hq. subst ql. rewrite limit_default in Hn.
  exact Hn.
Qed.

Lemma listing_has_at_most_200_records_witness :
  (List.length
     (firstn (Z.to_nat (limit_of (Some "500")))
        (skipn (Z.to_nat (skip_of None))
           (sort_desc (docs (sample 3 0 5))))) <= 200)%nat.
Proof.
  destruct (listing_has_at_most_200_records (Some "500") None None
              (sample 3 0 5)) as [_ [_ H]].
  apply (H _ _ (get_logs_ok (Some "500") None (sample 3 0 5)
                  ltac:(vm_compute; discriminate) ltac:(reflexivity))).
  reflexivity.
Defined.

Lemma firstn_then_firstn (a b : nat) (l : list saved) :
  firstn a l ++ firstn b (skipn a l) = firstn (a + b) l.
Proof.
  revert l. induction a as [|a IH]; intro l; simpl; [reflexivity|].
  destruct l as [|x l]; simpl.
  - rewrite firstn_nil. reflexivity.
  - rewrite IH. reflexivity.
Qed.

Lemma same_timestamp_same_record (l : list saved) (a b : saved) :
  distinct_timestamps l -> In a l -> In b l ->
  timestamp (body a) = timestamp (body b) -> a = b.
Proof.
  unfold distinct_timestamps.
  induction l as [|x l IH]; simpl; intros Hn Ha Hb E; [destruct Ha|].
  inversion Hn as [|y m Hx Hl]; subst.
  destruct Ha as [Ha|Ha], Hb as [Hb|Hb].
  - congruence.
  - subst x. exfalso. apply Hx. rewrite E.
    apply in_map with (f := fun r => timestamp (body r)). exact Hb.
  - subst x. exfalso. apply Hx. rewrite <- E.
    apply in_map with (f := fun r => timestamp (body r)). exact Ha.
  - apply IH; assumption.
Qed.

(** With distinct timestamps there is one newest-first arrangement. *)
Lemma newest_first_unique (l1 l2 : list saved) :
  Permutation l1 l2 -> distinct_timestamps l1 ->
  StronglySorted newer_first l1 -> StronglySorted newer_first l2 ->
  l1 = l2.
Proof.
  revert l2. induction l1 as [|x l1 IH]; intros l2 Hp Hd H1 H2.
  - apply Permutation_nil in Hp. subst l2. reflexivity.
  - destruct l2 as [|y l2].
    { apply Permutation_sym, Permutation_nil in Hp. discriminate Hp. }
    inversion H1 as [|? ? Hs1 Hx]; subst.
    inversion H2 as [|? ? Hs2 Hy]; subst.
    rewrite Forall_forall in Hx, Hy.
    assert (Hxy : x = y).
    { assert (Hin_x : In x (y :: l2))
        by (apply (Permutation_in _ Hp); left; reflexivity).
      assert (Hin_y : In y (x :: l1))
        by (apply (Permutation_in _ (Permutation_sym Hp)); left; reflexivity).
      destruct Hin_x as [E|Hx2]; [symmetry; exact E|].
      destruct Hin_y as [E|Hy1]; [exact E|].
      apply (same_timestamp_same_record (x :: l1)); try assumption.
      - left. reflexivity.
      - right. exact Hy1.
      - assert (A := Hy x Hx2). assert (B := Hx y Hy1).
        unfold newer_first in A, B. lia. }
    subst y. f_equal. apply IH.
    + apply Permutation_cons_inv with (a := x). exact Hp.
    + unfold distinct_timestamps in *. simpl in Hd.
      inversion Hd; assumption.
    + exact Hs1.
    + exact Hs2.
Qed.

(** X9. When no two stored records have the same timestamp, the
    newest-first order of the collection is determined: every newest-first
    arrangement of the collection is the one the listing uses.  Then
    consecutive pages tile it: the page at [skip] followed by the page at
    [skip + limit] is the page of double size at [skip], so paging with a
    fixed limit neither repeats nor drops a record as long as the
    collection does not change. *)
Theorem consecutive_pages_tile :
  forall (q_limit q_skip q_next : option string) (st : store),
    distinct_timestamps (docs st) ->
    0 < limit_of q_limit -> 0 <= skip_of q_skip ->
    skip_of q_next = skip_of q_skip + limit_of q_limit ->
    (forall sorted,
       Permutation sorted (docs st) -> StronglySorted newer_first sorted ->
       sorted = sort_desc (docs st)) /\
    exists logs1 logs2 n,
      get_logs q_limit q_skip None st = [Respond 200 (LogsBody logs1 n)] /\
      get_logs q_limit q_next None st = [Respond 200 (LogsBody logs2 n)] /\
      logs1 ++ logs2 =
        firstn (2 * Z.to_nat (limit_of q_limit))
          (skipn (Z.to_nat (skip_of q_skip)) (sort_desc (docs st))).
Proof.
  intros ql qs qn st Hd Hl Hs Hn. split.
  - intros sorted Hp Hsorted. symmetry.
    apply newest_first_unique.
    + apply perm_trans with (docs st);
        [apply sort_desc_perm | apply Permutation_sym, Hp].
    + unfold distinct_timestamps in *.
      apply (Permutation_NoDup
               (l := map (fun r => timestamp (body r)) (docs st)));
        [|exact Hd].
      apply Permutation_map, Permutation_sym, sort_desc_perm.
    + apply sort_desc_sorted.
    + exact Hsorted.
  - do 3 eexists.
    split; [apply get_logs_ok; assumption|].
    split; [apply get_logs_ok; lia|].
    rewrite Hn, Z2Nat.inj_add by lia.
    rewrite (Nat.add_comm (Z.to_nat (skip_of qs))), <- skipn_skipn.
    rewrite firstn_then_firstn. f_equal. lia.
Qed.

Lemma consecutive_pages_tile_witness :
  exists logs1 logs2 n,
    get_logs (Some "2") None None
      (store_of [rec_at 0 10 false; rec_at 1 20 true; rec_at 2 30 false;
                 rec_at 3 40 false; rec_at 4 50 true]) =
      [Respond 200 (LogsBody logs1 n)] /\
    get_logs (Some "2") (Some "2") None
      (store_of [rec_at 0 10 false; rec_at 1 20 true; rec_at 2 30 false;
                 rec_at 3 40 false; rec_at 4 50 true]) =
      [Respond 200 (LogsBody logs2 n)] /\
    logs1 ++ logs2 =
      [rec_at 4 50 true; rec_at 3 40 false; rec_at 2 30 false;
       rec_at 1 20 true].
Proof.
  assert (Hd : distinct_timestamps
                 (docs (store_of [rec_at 0 10 false; rec_at 1 20 true;
                                  rec_at 2 30 false; rec_at 3 40 false;
                                  rec_at 4 50 true]))).
  { unfold distinct_timestamps. simpl.
    repeat (constructor; [simpl; intuition discriminate|]). constructor. }
  destruct (consecutive_pages_tile (Some "2") None (Some "2") _ Hd
              ltac:(reflexivity) ltac:(vm_compute; discriminate)
              ltac:(reflexivity))
    as [_ [l1 [l2 [n [H1 [H2 H3]]]]]].
  exists l1, l2, n. split; [exact H1|]. split; [exact H2|].
  rewrite H3. vm_compute. reflexivity.
Defined.

Lemma insert_desc_oldest (x : saved) (l : list saved) :
  (forall r, In r l -> timestamp (body x) < timestamp (body r)) ->
  insert_desc x l = l ++ [x].
Proof.
  induction l as [|y l IH]; simpl; intro H; [reflexivity|].
  replace (timestamp (body y) <? timestamp (body x)) with false
    by (symmetry; apply Z.ltb_ge;
        assert (Hy := H y (or_introl eq_refl)); lia).
  rewrite IH by (intros r Hr; apply H; right; exact Hr). reflexivity.
Qed.

Lemma sort_desc_increasing (l : list saved) :
  increasing l -> sort_desc l = rev l.
Proof.
  induction 1 as [|x l Hl IH Hx]; simpl; [reflexivity|].
  rewrite IH. apply insert_desc_oldest.
  intros r Hr. apply in_rev in Hr. rewrite Forall_forall in Hx.
  apply Hx, Hr.
Qed.

Lemma increasing_snoc (l : list saved) (s : saved) :
  increasing l ->
  (forall r, In r l -> timestamp (body r) < timestamp (body s)) ->
  increasing (l ++ [s]).
Proof.
  induction 1 as [|x l Hl IH Hx]; simpl; intro H.
  - constructor; constructor.
  - constructor.
    + apply IH. intros r Hr. apply H. right. exact Hr.
    + apply Forall_app. split; [exact Hx|].
      constructor; [|constructor]. apply H. left. reflexivity.
Qed.

Lemma get_logs_increasing (st : store) :
  increasing (docs st) ->
  get_logs None None None st =
    [Respond 200 (LogsBody (firstn 50 (rev (docs st)))
                           (List.length (docs st)))].
Proof.
  intro H. rewrite get_logs_default, (sort_desc_increasing _ H).
  reflexivity.
Qed.

(** X10. When the stored timestamps grow strictly in insertion order, the
    listing without parameters is the last 50 insertions, latest first; and
    an ingestion at a time later than every stored timestamp keeps the
    timestamps growing. *)
Theorem listing_of_increasing_store :
  (forall (st : store),
     increasing (docs st) ->
     get_logs None None None st =
       [Respond 200 (LogsBody (firstn 50 (rev (docs st)))
                              (List.length (docs st)))]) /\
  (forall (now : Z) (req : value) (st st' : store) (tr : list event),
     increasing (docs st) ->
     (forall r, In r (docs st) -> timestamp (body r) < now) ->
     post_logs now None req st = Normal (st', tr) ->
     increasing (docs st')).
Proof.
  split; [exact get_logs_increasing|].
  intros now req st st' tr Hi Hn Hp.
  destruct (accepted req) eqn:Ha.
  - destruct (post_logs_accepts now None req st Ha) as [d [_ [Hf Hp']]].
    rewrite Hp' in Hp. cbv zeta in Hp. injection Hp as Hp _. subst st'.
    simpl. apply increasing_snoc; [exact Hi|].
    intros r Hr. simpl. destruct Hf as [Hts _]. rewrite Hts.
    apply Hn, Hr.
  - rewrite (post_logs_rejects now None req st Ha) in Hp.
    injection Hp as Hp _. subst st'. exact Hi.
Qed.

Lemma listing_of_increasing_store_witness :
  get_logs None None None
    (store_of [rec_at 0 10 false; rec_at 1 20 true; rec_at 2 30 false]) =
    [Respond 200
       (LogsBody [rec_at 2 30 false; rec_at 1 20 true; rec_at 0 10 false] 3)].
Proof.
  destruct listing_of_increasing_store as [H _].
  apply (H (store_of [rec_at 0 10 false; rec_at 1 20 true; rec_at 2 30 false])).
  repeat constructor.
Defined.

(** ** Threat level *)

(** [c < x] and [x <= y] give [c < y]. *)
Lemma SFltb_leb_trans (c x y : spec_float) :
  SFltb c x = true -> SFleb x y = true -> SFltb c y = true.
Proof.
  unfold SFltb, SFleb.
  destruct c as [sc|sc| |sc mc ec], x as [sx|sx| |sx mx ex],
           y as [sy|sy| |sy my ey]; simpl;
    try discriminate; try reflexivity;
    try (destruct sc; simpl; try discriminate; try reflexivity);
    try (destruct sx; simpl; try discriminate; try reflexivity);
    try (destruct sy; simpl; try discriminate; try reflexivity).
  all: fold (Pos.compare mc mx); fold (Pos.compare mx my);
       fold (Pos.compare mc my).
  all: destruct (Z.compare_spec ec ex), (Z.compare_spec ex ey),
                (Z.compare_spec ec ey);
       try discriminate; try reflexivity; try lia; subst.
  all: destruct (Pos.compare_spec mc mx), (Pos.compare_spec mx my),
                (Pos.compare_spec mc my);
       simpl; try discriminate; try reflexivity; try lia.
Qed.

Lemma threat_level_range (r : Num.number) :
  threat_level r = "high" \/ threat_level r = "medium" \/
  threat_level r = "low" \/ threat_level r = "none".
Proof.
  unfold threat_level.
  destruct (Num.gt r (Num.of_Z 10)); [tauto|].
  destruct (Num.gt r (Num.of_Z 3)); [tauto|].
  destruct (Num.gt r (Num.of_Z 0)); tauto.
Qed.

(** X11. The threat level is one of high, medium, low and none, and it is
    monotone in the rate: a rate that is at least another rate never gets a
    lower level. *)
Theorem threat_level_is_monotone :
  forall (r1 r2 : Num.number),
    Num.le r1 r2 = true ->
    (threat_rank (threat_level r1) <= threat_rank (threat_level r2))%nat /\
    (threat_level r2 = "high" \/ threat_level r2 = "medium" \/
     threat_level r2 = "low" \/ threat_level r2 = "none").
Proof.
  intros r1 r2 H. split; [|apply threat_level_range].
  assert (Hup : forall c, Num.gt r1 c = true -> Num.gt r2 c = true).
  { intros c Hc. unfold Num.gt, Num.le in *.
    exact (SFltb_leb_trans c r1 r2 Hc H). }
  unfold threat_level.
  destruct (Num.gt r1 (Num.of_Z 10)) eqn:E10.
  { rewrite (Hup _ E10). apply Nat.le_refl. }
  destruct (Num.gt r1 (Num.of_Z 3)) eqn:E3.
  { rewrite (Hup _ E3). destruct (Num.gt r2 (Num.of_Z 10));
      vm_compute; lia. }
  destruct (Num.gt r1 (Num.of_Z 0)) eqn:E0.
  { rewrite (Hup _ E0).
    destruct (Num.gt r2 (Num.of_Z 10)), (Num.gt r2 (Num.of_Z 3));
      vm_compute; lia. }
  apply Nat.le_0_l.
Qed.

Lemma threat_level_is_monotone_witness :
  (threat_rank (threat_level (anomaly_rate 100 3)) <=
   threat_rank (threat_level (anomaly_rate 10 2)))%nat.
Proof.
  apply (threat_level_is_monotone (anomaly_rate 100 3) (anomaly_rate 10 2)).
  vm_compute. reflexivity.
Defined.

(** ** The dashboard client *)

Lemma firstn_app_firstn {A : Type} (a b : list A) (n m : nat) :
  (n <= m)%nat -> firstn n (a ++ firstn m b) = firstn n (a ++ b).
Proof.
  revert n. induction a as [|x a IH]; intros n H; simpl.
  - rewrite firstn_firstn. f_equal. lia.
  - destruct n as [|n]; [reflexivity|]. simpl. f_equal. apply IH. lia.
Qed.

Lemma on_logs_spec {A : Type} (events init : list A) :
  (List.length init <= 200)%nat ->
  Feed.on_logs events init = firstn 200 (rev events ++ init).
Proof.
  revert init. induction events as [|e events IH]; intros init Hi.
  - symmetry. apply firstn_all2. exact Hi.
  - change (Feed.on_logs (e :: events) init)
      with (Feed.on_logs events (Feed.on_log e init)).
    rewrite IH by (unfold Feed.on_log; rewrite length_firstn; lia).
    unfold Feed.on_log.
    rewrite firstn_app_firstn by lia.
    cbn [rev]. rewrite <- app_assoc. reflexivity.
Qed.

(** X12. The log feed of the dashboard holds at most 200 entries, newest
    event first: starting from a list of at most 200 entries, after any
    sequence of [log] events the feed is the first 200 entries of the
    events in reverse order of arrival followed by the initial list; one
    event puts its record at the head and drops the last entry exactly
    when the feed was full. *)
Theorem feed_keeps_the_newest_200 :
  forall (A : Type) (events init : list A),
    (List.length init <= 200)%nat ->
    Feed.on_logs events init = firstn 200 (rev events ++ init) /\
    (List.length (Feed.on_logs events init) <= 200)%nat /\
    (forall x,
       Feed.on_log x init =
         x :: (if (List.length init <? 200)%nat then init
               else removelast init)).
Proof.
  intros A events init Hi.
  split; [apply on_logs_spec, Hi|].
  split.
  - rewrite on_logs_spec by exact Hi. apply firstn_le_length.
  - intro x. unfold Feed.on_log.
    change (firstn 200 (x :: init)) with (x :: firstn 199 init).
    f_equal. destruct (List.length init <? 200)%nat eqn:E.
    + apply Nat.ltb_lt in E. apply firstn_all2. lia.
    + apply Nat.ltb_ge in E.
      assert (Hl : List.length init = 200%nat) by lia.
      rewrite removelast_firstn_len, Hl. reflexivity.
Qed.

Lemma feed_keeps_the_newest_200_witness :
  Feed.on_logs [1; 2; 3]%nat [0]%nat = [3; 2; 1; 0]%nat.
Proof.
  destruct (feed_keeps_the_newest_200 nat [1; 2; 3]%nat [0]%nat
              ltac:(simpl; lia)) as [H _].
  rewrite H. reflexivity.
Defined.

Lemma is_string_truthy (v : value) (s : string) :
  s <> "" -> Feed.is_string v s = true -> v = Some (JStr s) /\ truthy v = true.
Proof.
  intros Hs H. destruct v as [j|]; [destruct j|]; try discriminate H.
  simpl in H. apply String.eqb_eq in H. subst s0. split; [reflexivity|].
  simpl. apply negb_true_iff. apply String.eqb_neq. exact Hs.
Qed.



(** X14. For every rate, the gauge drawn for the level the statistics
    handler computes uses that level's own entry (label None, Low, Medium
    or High) and fills 0, 25, 60 or 100 percent of the ring, more for a
    graver level.  A level that is none of the four and not an inherited
    member name falls back to the entry of none, labelled None, yet fills
    the whole ring. *)
Theorem gauge_matches_threat_level :
  (forall (r : Num.number),
     let level := threat_level r in
     exists c,
       Gauge.config_of level = Some c /\
       Gauge.own level Gauge.THREAT_COLORS = Some c /\
       Gauge.label c =
         nth (threat_rank level) ["None"; "Low"; "Medium"; "High"] "" /\
       Gauge.pct level = nth (threat_rank level) [0; 25; 60; 100] 0) /\
  (forall (level : string),
     Gauge.own level Gauge.THREAT_COLORS = None ->
     Gauge.inherited level = false ->
     (exists c, Gauge.config_of level = Some c /\ Gauge.label c = "None") /\
     Gauge.pct level = 100).
Proof.
  split.
  - intro r. cbv zeta.
    destruct (threat_level_range r) as [H|[H|[H|H]]]; rewrite H;
      eexists; repeat split; reflexivity.
  - intros level Ho Hi. split.
    + unfold Gauge.config_of. rewrite Ho, Hi. eexists.
      split; reflexivity.
    + unfold Gauge.pct. unfold Gauge.THREAT_COLORS in Ho. simpl in Ho.
      destruct (String.eqb level "none"); [discriminate Ho|].
      destruct (String.eqb level "low"); [discriminate Ho|].
      destruct (String.eqb level "medium"); [discriminate Ho|].
      reflexivity.
Qed.

Lemma gauge_matches_threat_level_witness :
  (exists c, Gauge.config_of "critical" = Some c /\ Gauge.label c = "None") /\
  Gauge.pct "critical" = 100.
Proof.
  destruct gauge_matches_threat_level as [_ H].
  apply (H "critical"); reflexivity.
Defined.

(** X15. A client whose feed starts empty together with an empty
    collection, and that receives every broadcast, shows the stored
    records in reverse order of insertion, capped at 200; when the stored
    timestamps grow strictly, the listing without parameters is the first
    50 entries of that feed. *)
Theorem feed_mirrors_the_collection :
  forall (rqs : list request) (st' : store) (tr : list event),
    run rqs (store_of []) = Normal (st', tr) ->
    Feed.on_logs (emitted tr) [] = firstn 200 (rev (docs st')) /\
    (increasing (docs st') ->
     get_logs None None None st' =
       [Respond 200
          (LogsBody (firstn 50 (Feed.on_logs (emitted tr) []))
                    (List.length (docs st')))]).
Proof.
  intros rqs st' tr Hr.
  destruct (run_effect rqs (store_of [])) as [st2 [tr2 [Hr2 [Hd _]]]].
  rewrite Hr in Hr2. injection Hr2 as Hs Ht. subst st2 tr2.
  simpl in Hd.
  assert (Hf : Feed.on_logs (emitted tr) [] = firstn 200 (rev (docs st'))).
  { rewrite on_logs_spec by (simpl; lia). rewrite app_nil_r, Hd.
    reflexivity. }
  split; [exact Hf|].
  intro Hi.
  rewrite (get_logs_increasing st' Hi), Hf, firstn_firstn. reflexivity.
Qed.

Lemma feed_mirrors_the_collection_witness :
  match run [PostLogs 5 None (Some (JObj [("log", JNull)]));
             GetLogs None None None;
             PostLogs 8 None (Some (JObj [("log", JStr "x")]))]
            (store_of []) with
  | Normal (st', tr) =>
      Feed.on_logs (emitted tr) [] = firstn 200 (rev (docs st'))
  | Throw _ => False
  end.
Proof.
  destruct (run _ (store_of [])) as [[st' tr]|m] eqn:E.
  - apply (feed_mirrors_the_collection _ _ _ E).
  - vm_compute in E. discriminate E.
Defined.
